(** * tokenERC20.js: a shallow embedding of the chaincode and its properties

    The contract [TokenERC20Contract] of [src/tokenERC20.js] runs inside a
    Hyperledger Fabric peer.  Every method is one ledger transaction: it
    reads the world state through [ctx.stub.getState], computes with
    JavaScript numbers, and writes through [ctx.stub.putState].

    The embedding follows the source method by method:
    - JavaScript numbers are IEEE 754 doubles.  The contract only ever
      adds, subtracts and compares numbers produced by [parseInt], so
      every number it meets is an integer-valued double, an infinity or
      NaN ([Number]); sums are rounded to the nearest double
      ([round_to_double]).
    - [async] methods return promises ([Promise]); [await] unwraps one and
      rethrows its rejection.
    - a method is a function from the ledger snapshot and the pending
      write set to a result or a thrown error ([Tx]). *)

From Stdlib Require Import ZArith Lia String Ascii DecimalString DecimalN.
From stdpp Require Import gmap strings list fin_maps.

Local Open Scope Z_scope.

(** ** JavaScript numbers *)

Module JS.

(** The values a [parseInt] result and its sums and differences can take.
    [Num z] is the finite double whose value is the integer [z]; the two
    zeros of IEEE 754 are identified, the contract cannot tell them apart
    (it never divides, and both print as 0). *)
Inductive Number : Type :=
  | Num (z : Z)
  | PosInf
  | NegInf
  | NaN.

#[global] Instance Number_eq_dec : EqDecision Number.
Proof. solve_decision. Defined.

(** Round-to-nearest, ties-to-even, of an integer to a 53-bit significand
    (the exponent is not bounded here, see [of_Z]). *)
Definition round_to_double (z : Z) : Z :=
  let a := Z.abs z in
  if a <? 2 ^ 53 then z
  else
    let e := Z.log2 a - 52 in
    let q := a / 2 ^ e in
    let r := a mod 2 ^ e in
    let half := 2 ^ (e - 1) in
    let q' := if r <? half then q
              else if half <? r then q + 1
              else if Z.even q then q else q + 1 in
    Z.sgn z * (q' * 2 ^ e).

(** The double nearest to the real number [z]; past the largest finite
    double the result is an infinity. *)
Definition of_Z (z : Z) : Number :=
  let r := round_to_double z in
  if 2 ^ 1024 <=? r then PosInf
  else if r <=? - 2 ^ 1024 then NegInf
  else Num r.

Definition MAX_SAFE_INTEGER : Z := 2 ^ 53 - 1.

(** [x + y] *)
Definition add (x y : Number) : Number :=
  match x, y with
  | NaN, _ | _, NaN => NaN
  | PosInf, NegInf | NegInf, PosInf => NaN
  | PosInf, _ | _, PosInf => PosInf
  | NegInf, _ | _, NegInf => NegInf
  | Num a, Num b => of_Z (a + b)
  end.

(** [- x] *)
Definition neg (x : Number) : Number :=
  match x with
  | Num a => Num (- a)
  | PosInf => NegInf
  | NegInf => PosInf
  | NaN => NaN
  end.

(** [x - y] *)
Definition sub (x y : Number) : Number := add x (neg y).

(** [x < y] *)
Definition lt (x y : Number) : bool :=
  match x, y with
  | NaN, _ | _, NaN => false
  | Num a, Num b => a <? b
  | _, NegInf => false
  | NegInf, _ => true
  | PosInf, _ => false
  | Num _, PosInf => true
  end.

(** [x === y] on numbers: NaN is not equal to itself. *)
Definition strict_eq (x y : Number) : bool :=
  match x, y with
  | NaN, _ | _, NaN => false
  | Num a, Num b => a =? b
  | PosInf, PosInf | NegInf, NegInf => true
  | _, _ => false
  end.

(** [x !== y] *)
Definition strict_ne (x y : Number) : bool := negb (strict_eq x y).

(** [x <= y] *)
Definition le (x y : Number) : bool := lt x y || strict_eq x y.

(** *** [parseInt(string)] with no radix argument

    The digits are read exactly and the integer is rounded once, to the
    nearest double. *)

Definition is_digit (c : ascii) : bool :=
  let n := N_of_ascii c in ((48 <=? n) && (n <=? 57))%N.

(** The value of [c] as a digit in radix [R] (10 or 16), if it is one. *)
Definition digit_value (R : N) (c : ascii) : option N :=
  let n := N_of_ascii c in
  if ((48 <=? n) && (n <=? 57))%N then Some (n - 48)%N
  else if (R =? 16)%N then
    if ((97 <=? n) && (n <=? 102))%N then Some (n - 87)%N
    else if ((65 <=? n) && (n <=? 70))%N then Some (n - 55)%N
    else None
  else None.

(** Reads the longest prefix of radix-[R] digits, most significant first. *)
Fixpoint digits_from (R : N) (s : string) (acc : N) : N :=
  match s with
  | String c r =>
      match digit_value R c with
      | Some d => digits_from R r (acc * R + d)%N
      | None => acc
      end
  | EmptyString => acc
  end.

(** Nothing is read when the first character is no digit. *)
Definition digits_value (R : N) (s : string) : option N :=
  match s with
  | String c _ =>
      match digit_value R c with
      | Some _ => Some (digits_from R s 0)
      | None => None
      end
  | EmptyString => None
  end.

(** Leading white space and line terminators (StrWhiteSpaceChar).  A
    string is its UTF-8 bytes, so the characters past U+007F are matched
    by their encodings. *)
Fixpoint trim_start_fuel (fuel : nat) (s : string) : string :=
  match fuel with
  | O => s
  | S fuel' =>
      match s with
      | String c r =>
          let n := N_of_ascii c in
          if ((9 <=? n) && (n <=? 13) || (n =? 32))%N then trim_start_fuel fuel' r
          else
            match s with
            (* U+00A0 *)
            | String "194" (String "160" r2) => trim_start_fuel fuel' r2
            (* U+1680 *)
            | String "225" (String "154" (String "128" r3)) => trim_start_fuel fuel' r3
            (* U+FEFF *)
            | String "239" (String "187" (String "191" r3)) => trim_start_fuel fuel' r3
            (* U+3000 *)
            | String "227" (String "128" (String "128" r3)) => trim_start_fuel fuel' r3
            (* U+205F *)
            | String "226" (String "129" (String "159" r3)) => trim_start_fuel fuel' r3
            (* U+2000..U+200A, U+2028, U+2029, U+202F *)
            | String "226" (String "128" (String c3 r3)) =>
                let m := N_of_ascii c3 in
                if ((128 <=? m) && (m <=? 138) || (m =? 168) || (m =? 169) || (m =? 175))%N
                then trim_start_fuel fuel' r3
                else s
            | _ => s
            end
      | EmptyString => s
      end
  end.

Definition trim_start (s : string) : string :=
  trim_start_fuel (String.length s) s.

Definition parseInt (input : string) : Number :=
  let s := trim_start input in
  let '(negative, s) :=
    match s with
    | String "-" r => (true, r)
    | String "+" r => (false, r)
    | _ => (false, s)
    end in
  let '(R, s) :=
    match s with
    | String "0" (String "x" r) => (16%N, r)
    | String "0" (String "X" r) => (16%N, r)
    | _ => (10%N, s)
    end in
  match digits_value R s with
  | None => NaN
  | Some n => of_Z (if negative then - Z.of_N n else Z.of_N n)
  end.

(** *** [Number.prototype.toString()] *)

Definition decimal (n : N) : string :=
  NilZero.string_of_uint (N.to_uint n).

Definition nb_digits (n : N) : nat :=
  String.length (decimal n).

Fixpoint zeros (k : nat) : string :=
  match k with
  | O => EmptyString
  | S k' => String "0" (zeros k')
  end.

(** The shortest digit string [s] of [k] digits such that [s * 10 ^ (n - k)]
    rounds to the double [x], searched from one digit up, with the number
    of digits of the value it stands for; [n] is the number of digits of
    [x].  A candidate is the multiple of [10 ^ (n - k)] just below or just
    above [x], the nearer one first; the one above may carry into a new
    digit (nines followed by a rounding up), and is then a one followed by
    [n] zeros. *)
Fixpoint shortest_from (fuel : nat) (k : nat) (n : nat) (x : Z) : nat * Z * nat :=
  match fuel with
  | O => (n, x, n)
  | S fuel' =>
      let d := 10 ^ Z.of_nat (n - k) in
      let lo := x / d in
      let hi := lo + 1 in
      let lo_ok := round_to_double (lo * d) =? x in
      let hi_ok := round_to_double (hi * d) =? x in
      let lo_near := x - lo * d <=? hi * d - x in
      if lo_ok && (lo_near || negb hi_ok) then (k, lo, n)
      else if hi_ok then
        if hi =? 10 ^ Z.of_nat k then (1%nat, 1, S n) else (k, hi, n)
      else shortest_from fuel' (S k) n x
  end.

Definition shortest (x : Z) : nat * Z * nat :=
  let n := nb_digits (Z.to_N x) in
  shortest_from n 1 n x.

(** Digits of a positive integer-valued double. *)
Definition render (x : Z) : string :=
  if x <? 2 ^ 53 then decimal (Z.to_N x)
  else
    let '(k, s, n) := shortest x in
    let ds := decimal (Z.to_N s) in
    if (n <=? 21)%nat then ds +:+ zeros (n - k)
    else
      let e := decimal (N.of_nat (n - 1)) in
      match ds with
      | String c EmptyString => String c ("e+" +:+ e)
      | String c r => String c ("." +:+ r +:+ "e+" +:+ e)
      | EmptyString => EmptyString
      end.

Definition Number_toString (x : Number) : string :=
  match x with
  | NaN => "NaN"
  | PosInf => "Infinity"
  | NegInf => "-Infinity"
  | Num z => if z <? 0 then "-" +:+ render (- z) else render z
  end.

(** [z] is the value of a double: rounding leaves it alone. *)
Definition representable (z : Z) : Prop := of_Z z = Num z.

(** A string of decimal digits only. *)
Fixpoint all_digits (s : string) : bool :=
  match s with
  | EmptyString => true
  | String c r => is_digit c && all_digits r
  end.

End JS.

(** ** The ledger and the transaction context *)

(** One element of a history array:
    [{ from: ..., to: ..., value: ..., time: ... }]. *)
Record TransactionRecord : Type := mkRecord {
  rec_from : string;
  rec_to : string;
  rec_value : string;
  rec_time : string
}.

#[global] Instance TransactionRecord_eq_dec : EqDecision TransactionRecord.
Proof. solve_decision. Defined.

(** The world state, by ledger key.  The contract writes two kinds of
    payload: text ([Buffer.from(<string>)]: the options and the numerals)
    and the JSON text of a history array
    ([Buffer.from(JSON.stringify(transactionData))]).  Only the three
    history writers write under a [transactionData] key and they always
    write such an array, so a history cell is kept as the array itself and
    [JSON.parse] after [JSON.stringify] is the identity on it. *)
Record WorldState : Type := mkWorld {
  cells : gmap string string;
  logs : gmap string (list TransactionRecord)
}.

(** What [ctx.stub.getState] resolves to for a key that holds no value.
    The contract tests [!bytes || bytes.length === 0] and so allows for
    both answers. *)
Inductive AbsentValue : Type :=
  | AbsentUndefined
  | AbsentEmptyBuffer.

(** What a method reads from [ctx] besides the world state. *)
Record Context : Type := mkContext {
  (** [ctx.clientIdentity.getID()] *)
  clientID : string;
  (** [ctx.clientIdentity.getMSPID()] *)
  clientMSPID : string;
  (** [ctx.stub.getTxTimestamp().array[0].toString()] *)
  txTimestamp : string;
  absentValue : AbsentValue
}.

(** The object [transferEvent] that [Mint] and [Burn] build. *)
Record TransferEvent : Type := mkEvent {
  ev_from : string;
  ev_to : string;
  ev_value : JS.Number
}.

(** A number field of a JSON text: [JSON.stringify] writes a finite
    number as its numeral, and NaN or an infinity as [null]. *)
Inductive JSONNumber : Type :=
  | JSON_num (z : Z)
  | JSON_null.

Definition JSON_of_Number (n : JS.Number) : JSONNumber :=
  match n with
  | JS.Num z => JSON_num z
  | _ => JSON_null
  end.

(** The payload of [ctx.stub.setEvent('Transfer', ...)]: the JSON text
    [{"from":...,"to":...,"value":...}], kept field by field. *)
Record EventPayload : Type := mkPayload {
  json_from : string;
  json_to : string;
  json_value : JSONNumber
}.

(** [JSON.stringify(transferEvent)] *)
Definition JSON_stringify (e : TransferEvent) : EventPayload :=
  {| json_from := ev_from e; json_to := ev_to e;
     json_value := JSON_of_Number (ev_value e) |}.

(** The errors the contract throws, named as in the error taxonomy, each
    with the values its message interpolates. *)
Inductive Error : Type :=
  (** 'contract options need to be set before calling any function, call
      Initialize() to initialize contract' *)
  | NotInitialized
  (** 'contract options are already set, client is not authorized to
      change them' *)
  | AlreadyInitialized
  (** 'client is not authorized to initialize contract', 'client is not
      authorized to mint new tokens' *)
  | Unauthorized
  (** 'transfer amount cannot be negative', 'mint amount must be a
      positive integer' *)
  | InvalidAmount
  (** `the account ${owner} does not exist` *)
  | AccountNotFound (owner : string)
  (** 'The balance does not exist' *)
  | BalanceNotFound
  (** `the account ${clientAccountID} no balance`, `client account ${from}
      no balance` *)
  | SourceAccountNotFound (account : string)
  (** `client account ${from} insufficient funds` *)
  | InsufficientFunds (account : string)
  (** `client account ${to} no signup` *)
  | DestinationNotSignedUp (account : string)
  (** 'cannot transfer to and from same client account' *)
  | SelfTransferRejected
  (** `Math: addition overflow occurred ${a} + ${b}` *)
  | ArithmeticOverflow (a b : JS.Number)
  (** `Math: subtraction overflow occurred ${a} - ${b}` *)
  | ArithmeticUnderflow (a b : JS.Number)
  (** 'totalSupply does not exist.' *)
  | SupplyNotFound
  (** `client account ${userAddress} 沒有交易紀錄` *)
  | NoHistory (account : string)
  (** reading a property of [undefined] *)
  | TypeError.

(** ** Transactions *)

(** What a running method has done so far: the writes it has put (applied
    to a copy of the world state) and the event it has set. *)
Record TxState : Type := mkTx {
  pending : WorldState;
  event : option (string * EventPayload)
}.

Inductive Result (A : Type) : Type :=
  | Return (a : A) (st : TxState)
  | Throw (e : Error).
Arguments Return {A} a st.
Arguments Throw {A} e.

(** A method body: it reads the snapshot the transaction started from
    ([getState] does not see the writes of the running transaction) and
    threads the pending writes. *)
Definition Tx (A : Type) : Type := WorldState -> TxState -> Result A.

Definition ret {A} (a : A) : Tx A := fun _ st => Return a st.

Definition throw {A} (e : Error) : Tx A := fun _ _ => Throw e.

Definition bind {A B} (m : Tx A) (k : A -> Tx B) : Tx B :=
  fun snap st =>
    match m snap st with
    | Return a st' => k a snap st'
    | Throw e => Throw e
    end.

Notation "x <- m ;; k" := (bind m (fun x => k))
  (at level 100, m at next level, right associativity).
Notation "m ;; k" := (bind m (fun _ => k))
  (at level 100, right associativity).

(** A promise that has settled: every [async] method of the contract runs
    to its end before the caller goes on. *)
Inductive Promise (A : Type) : Type :=
  | Fulfilled (a : A)
  | Rejected (e : Error).
Arguments Fulfilled {A} a.
Arguments Rejected {A} e.

(** [await p] *)
Definition await {A} (p : Promise A) : Tx A :=
  match p with
  | Fulfilled a => ret a
  | Rejected e => throw e
  end.

(** [p.toString()] of a promise object, whatever it holds. *)
Definition Promise_toString {A} (p : Promise A) : string := "[object Promise]".

(** ** The stub *)

Definition absent (ctx : Context) : option string :=
  match absentValue ctx with
  | AbsentUndefined => None
  | AbsentEmptyBuffer => Some ""
  end.

(** [await ctx.stub.getState(key)] on a text cell: [None] is [undefined],
    [Some s] a buffer holding [s]. *)
Definition getState (ctx : Context) (key : string) : Tx (option string) :=
  fun snap st =>
    Return (match cells snap !! key with
            | Some s => Some s
            | None => absent ctx
            end) st.

(** [await ctx.stub.putState(key, Buffer.from(s))] *)
Definition putState (key : string) (s : string) : Tx unit :=
  fun _ st =>
    Return tt {| pending := {| cells := <[key := s]> (cells (pending st));
                               logs := logs (pending st) |};
                 event := event st |}.

(** [await ctx.stub.getState(key)] on a history cell, with the test
    [!bytes || bytes.length === 0] and [JSON.parse(bytes)] done: [None]
    when the test holds, the parsed array otherwise. *)
Definition getState_json (key : string) : Tx (option (list TransactionRecord)) :=
  fun snap st => Return (logs snap !! key) st.

(** [await ctx.stub.putState(key, Buffer.from(JSON.stringify(l)))] *)
Definition putState_json (key : string) (l : list TransactionRecord) : Tx unit :=
  fun _ st =>
    Return tt {| pending := {| cells := cells (pending st);
                               logs := <[key := l]> (logs (pending st)) |};
                 event := event st |}.

(** [ctx.stub.setEvent(name, Buffer.from(JSON.stringify(e)))] *)
Definition setEvent (name : string) (e : TransferEvent) : Tx unit :=
  fun _ st =>
    Return tt {| pending := pending st; event := Some (name, JSON_stringify e) |}.

(** Modelled from the spec: the ledger's composite-key constructor
    [createKey(kind, [params])], which is not part of the contract
    source: kind and parameters joined with a reserved separator (U+0000),
    after a leading separator that sets composite keys apart from plain
    ones. *)
Definition createCompositeKey (objectType : string) (attributes : list string) : string :=
  String Ascii.zero
    (objectType +:+
     String Ascii.zero
       (foldr (fun a k => a +:+ String Ascii.zero k) EmptyString attributes)).

(** The test [!bytes || bytes.length === 0] on what [getState] gave:
    [None] when it holds, the content of the buffer otherwise. *)
Definition content (bytes : option string) : option string :=
  match bytes with
  | Some EmptyString => None
  | Some s => Some s
  | None => None
  end.

(** [bytes.toString()] with no test before it. *)
Definition toString (bytes : option string) : Tx string :=
  match bytes with
  | Some s => ret s
  | None => throw TypeError
  end.

(** ** The contract *)

Module TokenERC20Contract.

Import JS.

Definition balancePrefix : string := "balance".
Definition transactionDataPrefix : string := "transactionData".
Definition nameKey : string := "name".
Definition symbolKey : string := "symbol".
Definition decimalsKey : string := "decimals".
Definition totalSupplyKey : string := "totalSupply".

(** [async add(a, b)]: the promise it returns. *)
Definition add (a b : Number) : Promise Number :=
  let c := JS.add a b in
  if strict_ne a (JS.sub c b) || strict_ne b (JS.sub c a)
  then Rejected (ArithmeticOverflow a b)
  else Fulfilled c.

(** [async sub(a, b)]: the promise it returns. *)
Definition sub (a b : Number) : Promise Number :=
  let c := JS.sub a b in
  if strict_ne a (JS.add c b) || strict_ne b (JS.sub a c)
  then Rejected (ArithmeticUnderflow a b)
  else Fulfilled c.

Definition CheckInitialized (ctx : Context) : Tx unit :=
  nameBytes <- getState ctx nameKey ;;
  match content nameBytes with
  | None => throw NotInitialized
  | Some _ => ret tt
  end.

Definition signup (ctx : Context) (userAddress : string) : Tx bool :=
  CheckInitialized ctx ;;
  let userBalanceKey := createCompositeKey balancePrefix [userAddress] in
  userCurrentBalanceBytes <- getState ctx userBalanceKey ;;
  let userCurrentBalance :=
    match content userCurrentBalanceBytes with
    | None => Num 0
    | Some s => parseInt s
    end in
  putState userBalanceKey (Number_toString userCurrentBalance) ;;
  ret true.

Definition TokenName (ctx : Context) : Tx string :=
  CheckInitialized ctx ;;
  nameBytes <- getState ctx nameKey ;;
  toString nameBytes.

Definition Symbol (ctx : Context) : Tx string :=
  CheckInitialized ctx ;;
  symbolBytes <- getState ctx symbolKey ;;
  toString symbolBytes.

Definition Decimals (ctx : Context) : Tx Number :=
  CheckInitialized ctx ;;
  decimalsBytes <- getState ctx decimalsKey ;;
  s <- toString decimalsBytes ;;
  let decimals := parseInt s in
  ret decimals.

Definition TotalSupply (ctx : Context) : Tx Number :=
  CheckInitialized ctx ;;
  totalSupplyBytes <- getState ctx totalSupplyKey ;;
  s <- toString totalSupplyBytes ;;
  let totalSupply := parseInt s in
  ret totalSupply.

Definition BalanceOf (ctx : Context) (owner : string) : Tx Number :=
  CheckInitialized ctx ;;
  let balanceKey := createCompositeKey balancePrefix [owner] in
  balanceBytes <- getState ctx balanceKey ;;
  match content balanceBytes with
  | None => throw (AccountNotFound owner)
  | Some s =>
      let balance := parseInt s in
      ret balance
  end.

Definition setFromTransactionData (ctx : Context) (from to value : string) : Tx bool :=
  CheckInitialized ctx ;;
  let transactionDataKey := createCompositeKey transactionDataPrefix [from] in
  transactionDataBytes <- getState_json transactionDataKey ;;
  match transactionDataBytes with
  | None =>
      let transactionData :=
        [{| rec_from := from; rec_to := to; rec_value := value;
            rec_time := txTimestamp ctx |}] in
      putState_json transactionDataKey transactionData ;;
      ret true
  | Some transactionData =>
      let newTransactionData :=
        {| rec_from := from; rec_to := to; rec_value := value;
           rec_time := txTimestamp ctx |} in
      (* transactionData.push(newTransactionData) *)
      putState_json transactionDataKey (transactionData ++ [newTransactionData]) ;;
      ret true
  end.

Definition setToTransactionData (ctx : Context) (from to value : string) : Tx bool :=
  CheckInitialized ctx ;;
  let transactionDataKey := createCompositeKey transactionDataPrefix [to] in
  transactionDataBytes <- getState_json transactionDataKey ;;
  match transactionDataBytes with
  | None =>
      let transactionData :=
        [{| rec_from := from; rec_to := to; rec_value := value;
            rec_time := txTimestamp ctx |}] in
      putState_json transactionDataKey transactionData ;;
      ret true
  | Some transactionData =>
      let newTransactionData :=
        {| rec_from := from; rec_to := to; rec_value := value;
           rec_time := txTimestamp ctx |} in
      putState_json transactionDataKey (transactionData ++ [newTransactionData]) ;;
      ret true
  end.

(** [async setAdminTransactionData(ctx, to, value)]: three parameters. *)
Definition setAdminTransactionData (ctx : Context) (to value : string) : Tx bool :=
  CheckInitialized ctx ;;
  let transactionDataKey := createCompositeKey transactionDataPrefix [to] in
  transactionDataBytes <- getState_json transactionDataKey ;;
  match transactionDataBytes with
  | None =>
      let transactionData :=
        [{| rec_from := "admin"; rec_to := to; rec_value := value;
            rec_time := txTimestamp ctx |}] in
      putState_json transactionDataKey transactionData ;;
      ret true
  | Some transactionData =>
      let newTransactionData :=
        {| rec_from := "admin"; rec_to := to; rec_value := value;
           rec_time := txTimestamp ctx |} in
      putState_json transactionDataKey (transactionData ++ [newTransactionData]) ;;
      ret true
  end.

Definition Transfer (ctx : Context) (to value : string) : Tx bool :=
  CheckInitialized ctx ;;
  let clientAccountID := clientID ctx in
  let valueInt := parseInt value in
  if lt valueInt (Num 0) then throw InvalidAmount else
  let fromBalanceKey := createCompositeKey balancePrefix [clientAccountID] in
  fromCurrentBalanceBytes <- getState ctx fromBalanceKey ;;
  match content fromCurrentBalanceBytes with
  | None => throw (SourceAccountNotFound clientAccountID)
  | Some fromText =>
      let fromCurrentBalance := parseInt fromText in
      if lt fromCurrentBalance valueInt then throw (InsufficientFunds clientAccountID) else
      let toBalanceKey := createCompositeKey balancePrefix [to] in
      toCurrentBalanceBytes <- getState ctx toBalanceKey ;;
      match content toCurrentBalanceBytes with
      | None => throw (DestinationNotSignedUp to)
      | Some toText =>
          let toCurrentBalance := parseInt toText in
          fromUpdatedBalance <- await (sub fromCurrentBalance valueInt) ;;
          toUpdatedBalance <- await (add toCurrentBalance valueInt) ;;
          putState fromBalanceKey (Number_toString fromUpdatedBalance) ;;
          putState toBalanceKey (Number_toString toUpdatedBalance) ;;
          (* this.setAdminTransactionData(ctx, clientAccountID, to, value):
             four arguments for three parameters, [clientAccountID] binds
             to [to], [to] binds to [value], and [value] is dropped *)
          setAdminTransactionData ctx clientAccountID to ;;
          ret true
      end
  end.

Definition TransferFrom (ctx : Context) (from to value : string) : Tx bool :=
  if String.eqb from to then throw SelfTransferRejected else
  let valueInt := parseInt value in
  if lt valueInt (Num 0) then throw InvalidAmount else
  let fromBalanceKey := createCompositeKey balancePrefix [from] in
  fromCurrentBalanceBytes <- getState ctx fromBalanceKey ;;
  match content fromCurrentBalanceBytes with
  | None => throw (SourceAccountNotFound from)
  | Some fromText =>
      let fromCurrentBalance := parseInt fromText in
      if lt fromCurrentBalance valueInt then throw (InsufficientFunds from) else
      let toBalanceKey := createCompositeKey balancePrefix [to] in
      toCurrentBalanceBytes <- getState ctx toBalanceKey ;;
      match content toCurrentBalanceBytes with
      | None => throw (DestinationNotSignedUp to)
      | Some toText =>
          let toCurrentBalance := parseInt toText in
          fromUpdatedBalance <- await (sub fromCurrentBalance valueInt) ;;
          toUpdatedBalance <- await (add toCurrentBalance valueInt) ;;
          putState fromBalanceKey (Number_toString fromUpdatedBalance) ;;
          putState toBalanceKey (Number_toString toUpdatedBalance) ;;
          setFromTransactionData ctx from to value ;;
          setToTransactionData ctx from to value ;;
          ret true
      end
  end.

Definition getTransactionData (ctx : Context) (userAddress : string)
    : Tx (list TransactionRecord) :=
  CheckInitialized ctx ;;
  let transactionDataKey := createCompositeKey transactionDataPrefix [userAddress] in
  transactionDataBytes <- getState_json transactionDataKey ;;
  match transactionDataBytes with
  | None => throw (NoHistory userAddress)
  | Some transactionData => ret transactionData
  end.

Definition Initialize (ctx : Context) (name symbol decimals : string) : Tx bool :=
  let clientMSPID := clientMSPID ctx in
  if negb (String.eqb clientMSPID "Org1MSP") then throw Unauthorized else
  nameBytes <- getState ctx nameKey ;;
  match content nameBytes with
  | Some _ => throw AlreadyInitialized
  | None =>
      putState nameKey name ;;
      putState symbolKey symbol ;;
      putState decimalsKey decimals ;;
      ret true
  end.

(** [this.add(...)] is called without [await] here: [updatedBalance] and
    [totalSupply] are the promises, and it is their [toString()] that is
    written.  A rejection of either promise is never observed. *)
Definition Mint (ctx : Context) (amount : string) : Tx bool :=
  CheckInitialized ctx ;;
  let clientMSPID := clientMSPID ctx in
  if negb (String.eqb clientMSPID "Org1MSP") then throw Unauthorized else
  let minter := clientID ctx in
  let amountInt := parseInt amount in
  if le amountInt (Num 0) then throw InvalidAmount else
  let balanceKey := createCompositeKey balancePrefix [minter] in
  currentBalanceBytes <- getState ctx balanceKey ;;
  let currentBalance :=
    match content currentBalanceBytes with
    | None => Num 0
    | Some s => parseInt s
    end in
  let updatedBalance := add currentBalance amountInt in
  putState balanceKey (Promise_toString updatedBalance) ;;
  totalSupplyBytes <- getState ctx totalSupplyKey ;;
  let totalSupply :=
    match content totalSupplyBytes with
    | None => Num 0
    | Some s => parseInt s
    end in
  let totalSupply := add totalSupply amountInt in
  putState totalSupplyKey (Promise_toString totalSupply) ;;
  let transferEvent := {| ev_from := "0x0"; ev_to := minter; ev_value := amountInt |} in
  setEvent "Transfer" transferEvent ;;
  ret true.

(** As in [Mint], [this.sub(...)] is called without [await]. *)
Definition Burn (ctx : Context) (amount : string) : Tx bool :=
  CheckInitialized ctx ;;
  let clientMSPID := clientMSPID ctx in
  if negb (String.eqb clientMSPID "Org1MSP") then throw Unauthorized else
  let minter := clientID ctx in
  let amountInt := parseInt amount in
  let balanceKey := createCompositeKey balancePrefix [minter] in
  currentBalanceBytes <- getState ctx balanceKey ;;
  match content currentBalanceBytes with
  | None => throw BalanceNotFound
  | Some s =>
      let currentBalance := parseInt s in
      let updatedBalance := sub currentBalance amountInt in
      putState balanceKey (Promise_toString updatedBalance) ;;
      totalSupplyBytes <- getState ctx totalSupplyKey ;;
      match content totalSupplyBytes with
      | None => throw SupplyNotFound
      | Some t =>
          let totalSupply := sub (parseInt t) amountInt in
          putState totalSupplyKey (Promise_toString totalSupply) ;;
          let transferEvent := {| ev_from := minter; ev_to := "0x0"; ev_value := amountInt |} in
          setEvent "Transfer" transferEvent ;;
          ret true
      end
  end.

Definition ClientAccountBalance (ctx : Context) : Tx Number :=
  CheckInitialized ctx ;;
  let clientAccountID := clientID ctx in
  let balanceKey := createCompositeKey balancePrefix [clientAccountID] in
  balanceBytes <- getState ctx balanceKey ;;
  match content balanceBytes with
  | None => throw (AccountNotFound clientAccountID)
  | Some s =>
      let balance := parseInt s in
      ret balance
  end.

Definition ClientAccountID (ctx : Context) : Tx string :=
  CheckInitialized ctx ;;
  let clientAccountID := clientID ctx in
  ret clientAccountID.

End TokenERC20Contract.

(** ** Submitting transactions *)

Inductive Outcome (A : Type) : Type :=
  (** the method returned [a]; the event it set, if any, goes out *)
  | Success (a : A) (ev : option (string * EventPayload))
  (** the method threw: the ledger drops its writes and its event *)
  | Failure (e : Error).
Arguments Success {A} a ev.
Arguments Failure {A} e.

(** One invocation against the committed world state [w]: the outcome and
    the world state after it. *)
Definition invoke {A} (tx : Tx A) (w : WorldState) : Outcome A * WorldState :=
  match tx w {| pending := w; event := None |} with
  | Return a st => (Success a (event st), pending st)
  | Throw e => (Failure e, w)
  end.

(** The public operations, with their arguments. *)
Inductive Operation : Type :=
  | OpInitialize (name symbol decimals : string)
  | OpMint (amount : string)
  | OpBurn (amount : string)
  | OpTransfer (to value : string)
  | OpTransferFrom (from to value : string)
  | OpSignup (userAddress : string)
  | OpBalanceOf (owner : string)
  | OpClientAccountBalance
  | OpClientAccountID
  | OpTokenName
  | OpSymbol
  | OpDecimals
  | OpTotalSupply
  | OpGetTransactionData (userAddress : string).

Inductive ReturnValue : Type :=
  | RBool (b : bool)
  | RString (s : string)
  | RNumber (n : JS.Number)
  | RHistory (l : list TransactionRecord).

Definition fmap_tx {A B} (f : A -> B) (m : Tx A) : Tx B :=
  a <- m ;; ret (f a).

Definition dispatch (ctx : Context) (op : Operation) : Tx ReturnValue :=
  match op with
  | OpInitialize name symbol decimals =>
      fmap_tx RBool (TokenERC20Contract.Initialize ctx name symbol decimals)
  | OpMint amount => fmap_tx RBool (TokenERC20Contract.Mint ctx amount)
  | OpBurn amount => fmap_tx RBool (TokenERC20Contract.Burn ctx amount)
  | OpTransfer to value => fmap_tx RBool (TokenERC20Contract.Transfer ctx to value)
  | OpTransferFrom from to value =>
      fmap_tx RBool (TokenERC20Contract.TransferFrom ctx from to value)
  | OpSignup userAddress => fmap_tx RBool (TokenERC20Contract.signup ctx userAddress)
  | OpBalanceOf owner => fmap_tx RNumber (TokenERC20Contract.BalanceOf ctx owner)
  | OpClientAccountBalance => fmap_tx RNumber (TokenERC20Contract.ClientAccountBalance ctx)
  | OpClientAccountID => fmap_tx RString (TokenERC20Contract.ClientAccountID ctx)
  | OpTokenName => fmap_tx RString (TokenERC20Contract.TokenName ctx)
  | OpSymbol => fmap_tx RString (TokenERC20Contract.Symbol ctx)
  | OpDecimals => fmap_tx RNumber (TokenERC20Contract.Decimals ctx)
  | OpTotalSupply => fmap_tx RNumber (TokenERC20Contract.TotalSupply ctx)
  | OpGetTransactionData userAddress =>
      fmap_tx RHistory (TokenERC20Contract.getTransactionData ctx userAddress)
  end.

(** A run of transactions, each with its own context, in commit order:
    the outcomes, oldest first, and the final world state. *)
Fixpoint run (calls : list (Context * Operation)) (w : WorldState)
    : list (Outcome ReturnValue) * WorldState :=
  match calls with
  | [] => ([], w)
  | (ctx, op) :: rest =>
      let '(o, w') := invoke (dispatch ctx op) w in
      let '(os, w'') := run rest w' in
      (o :: os, w'')
  end.

(** The world state of a fresh ledger. *)
Definition genesis : WorldState := {| cells := ∅; logs := ∅ |}.

(** ** Reading the world state *)

(** The content of a text cell, as the contract's test sees it: a key
    with an empty value counts as absent. *)
Definition holds (w : WorldState) (key : string) : option string :=
  content (cells w !! key).

(** Metadata exists. *)
Definition initialized (w : WorldState) : Prop :=
  is_Some (holds w TokenERC20Contract.nameKey).

Definition balanceKey (account : string) : string :=
  createCompositeKey TokenERC20Contract.balancePrefix [account].

Definition historyKey (account : string) : string :=
  createCompositeKey TokenERC20Contract.transactionDataPrefix [account].

(** The balance of an account as [BalanceOf] would report it. *)
Definition balance (w : WorldState) (account : string) : option JS.Number :=
  JS.parseInt <$> holds w (balanceKey account).

(** The history of an account as [getTransactionData] would report it. *)
Definition history (w : WorldState) (account : string) : option (list TransactionRecord) :=
  logs w !! historyKey account.

(** [s] starts with [p]. *)
Fixpoint starts_with (p s : string) : bool :=
  match p, s with
  | EmptyString, _ => true
  | String a p', String b s' => Ascii.eqb a b && starts_with p' s'
  | String _ _, EmptyString => false
  end.

(** The cells of the [balance] object type. *)
Definition is_balance_key (key : string) : bool :=
  starts_with (createCompositeKey TokenERC20Contract.balancePrefix []) key.

(** The integer a balance cell contributes to the sum; a cell that holds
    no finite number contributes nothing. *)
Definition balance_value (s : string) : Z :=
  match JS.parseInt s with
  | JS.Num z => z
  | _ => 0
  end.

Definition sum_step (key s : string) (acc : Z) : Z :=
  if is_balance_key key then balance_value s + acc else acc.

(** The sum of all stored account balances. *)
Definition sum_balances (w : WorldState) : Z :=
  map_fold sum_step 0 (cells w).

(** The conservation law: the stored total supply is the number that is
    the sum of the stored balances; before the first mint there is no
    total supply cell and the sum is zero. *)
Definition conservation (w : WorldState) : Prop :=
  match cells w !! TokenERC20Contract.totalSupplyKey with
  | Some s => JS.parseInt s = JS.Num (sum_balances w)
  | None => sum_balances w = 0
  end.

(** ** Ledgers and callers used in the examples *)

(** What every promise prints as. *)
Definition promiseText : string := "[object Promise]".

(** The operations that begin with [CheckInitialized]. *)
Definition gated (op : Operation) : bool :=
  match op with
  | OpInitialize _ _ _ | OpTransferFrom _ _ _ => false
  | _ => true
  end.

(** The history element [Transfer] leaves: see the call of
    [setAdminTransactionData] there. *)
Definition adminRecord (ctx : Context) (to : string) : TransactionRecord :=
  {| rec_from := "admin"; rec_to := clientID ctx; rec_value := to;
     rec_time := txTimestamp ctx |}.

(** The history element [TransferFrom] leaves under both accounts. *)
Definition transferRecord (ctx : Context) (from to value : string) : TransactionRecord :=
  {| rec_from := from; rec_to := to; rec_value := value; rec_time := txTimestamp ctx |}.

(** A member of the administrator organization, on a peer that answers a
    missing key with an empty buffer. *)
Definition org1_admin : Context :=
  {| clientID := "admin"; clientMSPID := "Org1MSP"; txTimestamp := "1700000000";
     absentValue := AbsentEmptyBuffer |}.

Definition alice : Context :=
  {| clientID := "alice"; clientMSPID := "Org2MSP"; txTimestamp := "1700000060";
     absentValue := AbsentEmptyBuffer |}.

(** The same caller against a stub that answers a missing key with
    [undefined]. *)
Definition alice_undefined : Context :=
  {| clientID := "alice"; clientMSPID := "Org2MSP"; txTimestamp := "1700000060";
     absentValue := AbsentUndefined |}.

(** The ledger right after [Initialize]. *)
Definition opened : WorldState :=
  snd (run [(org1_admin, OpInitialize "Token" "TK" "2")] genesis).

Definition after_first_mint : list (Outcome ReturnValue) * WorldState :=
  run [(org1_admin, OpMint "100")] opened.

Definition after_two_mints : list (Outcome ReturnValue) * WorldState :=
  run [(org1_admin, OpMint "100"); (org1_admin, OpMint "50");
       (org1_admin, OpBalanceOf "admin"); (org1_admin, OpTotalSupply)] opened.

Definition after_zero_transfer : list (Outcome ReturnValue) * WorldState :=
  run [(org1_admin, OpSignup "alice"); (org1_admin, OpSignup "bob");
       (alice, OpTransfer "bob" "0")] opened.

(** An initialized ledger on which alice holds the numeral [s] and bob
    holds 3. *)
Definition funded (s : string) : WorldState :=
  {| cells := <[balanceKey "alice" := s]> (<[balanceKey "bob" := "3"]> (cells opened));
     logs := ∅ |}.

(** ** Further vocabulary *)

(** The operations that only read. *)
Definition read_only (op : Operation) : bool :=
  match op with
  | OpBalanceOf _ | OpClientAccountBalance | OpClientAccountID
  | OpTokenName | OpSymbol | OpDecimals | OpTotalSupply
  | OpGetTransactionData _ => true
  | _ => false
  end.

(** The world state a successful call leaves, the one before it when the
    call fails. *)
Definition after {A} (tx : Tx A) (w : WorldState) : WorldState := snd (invoke tx w).

Definition bob : Context :=
  {| clientID := "bob"; clientMSPID := "Org2MSP"; txTimestamp := "1700000120";
     absentValue := AbsentUndefined |}.

(** A method body that puts nothing and sets no event. *)
Definition pure_read {A} (tx : Tx A) : Prop :=
  forall snap st, match tx snap st with
                  | Return _ st' => st' = st
                  | Throw _ => True
                  end.

(** A member of the administrator organization whose identity is alice. *)
Definition banker : Context :=
  {| clientID := "alice"; clientMSPID := "Org1MSP"; txTimestamp := "1700000180";
     absentValue := AbsentEmptyBuffer |}.

(** [z] is a number a balance cell keeps: a double that [parseInt] reads
    back from the numeral [toString] writes for it. *)
Definition reads_back (z : Z) : Prop :=
  JS.representable z /\ JS.parseInt (JS.Number_toString (JS.Num z)) = JS.Num z.

(** The administrator mints 100, bob signs up, and the administrator
    transfers 0 to bob. *)
Definition after_mint_zero_transfer : list (Outcome ReturnValue) * WorldState :=
  run [(org1_admin, OpMint "100"); (org1_admin, OpSignup "bob");
       (org1_admin, OpTransfer "bob" "0")] opened.

(** [funded s] with a total supply cell. *)
Definition supplied (s t : string) : WorldState :=
  {| cells := <[TokenERC20Contract.totalSupplyKey := t]> (cells (funded s)); logs := ∅ |}.

(** * Properties *)

(** ** Numbers: where the arithmetic is exact *)

Section Rounding.
Import JS.

Lemma pow2_53_lt_1024 : 2 ^ 53 < 2 ^ 1024.
Proof. apply Z.pow_lt_mono_r; lia. Qed.

Lemma round_to_double_small z : Z.abs z < 2 ^ 53 -> round_to_double z = z.
Proof.
  intros H. unfold round_to_double.
  destruct (Z.ltb_spec (Z.abs z) (2 ^ 53)); [reflexivity | lia].
Qed.

Lemma of_Z_small z : Z.abs z < 2 ^ 53 -> of_Z z = Num z.
Proof.
  intros H. unfold of_Z. rewrite round_to_double_small by assumption.
  pose proof pow2_53_lt_1024.
  destruct (Z.leb_spec (2 ^ 1024) z); [lia |].
  destruct (Z.leb_spec z (- 2 ^ 1024)); [lia | reflexivity].
Qed.

(** Every integer up to [2 ^ 53] in magnitude is a double. *)
Lemma representable_safe z : Z.abs z <= 2 ^ 53 -> representable z.
Proof.
  intros H. unfold representable.
  destruct (Z.eq_dec (Z.abs z) (2 ^ 53)) as [E | E].
  - destruct (Z.abs_spec z) as [[_ A] | [_ A]]; rewrite A in E.
    + subst z. vm_compute. reflexivity.
    + assert (z = - 2 ^ 53) as -> by lia. vm_compute. reflexivity.
  - apply of_Z_small. lia.
Qed.

Lemma strict_ne_refl z : strict_ne (Num z) (Num z) = false.
Proof. unfold strict_ne, strict_eq. now rewrite Z.eqb_refl. Qed.

Lemma lt_zero_false b : 0 <= b -> lt (Num b) (Num 0) = false.
Proof. intros H. cbn. now apply Z.ltb_ge. Qed.

(** The guard of [sub] passes whenever the operands and the difference
    are doubles, whatever the sign of the difference. *)
Lemma sub_representable a b :
  representable a -> representable b -> representable (a - b) ->
  TokenERC20Contract.sub (Num a) (Num b) = Fulfilled (Num (a - b)).
Proof.
  unfold representable. intros Ha Hb Hc.
  unfold TokenERC20Contract.sub, JS.sub. cbn [neg JS.add].
  replace (a + - b) with (a - b) by lia. rewrite Hc. cbn [neg JS.add].
  replace (a - b + b) with a by lia.
  replace (a + - (a - b)) with b by lia.
  rewrite Ha, Hb, !strict_ne_refl. reflexivity.
Qed.

Lemma add_representable a b :
  representable a -> representable b -> representable (a + b) ->
  TokenERC20Contract.add (Num a) (Num b) = Fulfilled (Num (a + b)).
Proof.
  unfold representable. intros Ha Hb Hc.
  unfold TokenERC20Contract.add, JS.sub. cbn [JS.add]. rewrite Hc.
  cbn [neg JS.add].
  replace (a + b + - b) with a by lia.
  replace (a + b + - a) with b by lia.
  rewrite Ha, Hb, !strict_ne_refl. reflexivity.
Qed.

Lemma sub_safe_integers a b :
  0 <= a < b -> b <= 2 ^ 53 ->
  TokenERC20Contract.sub (Num a) (Num b) = Fulfilled (Num (a - b)).
Proof.
  intros R B. apply sub_representable; apply representable_safe; lia.
Qed.

Lemma sub_zero b :
  Z.abs b < 2 ^ 53 -> TokenERC20Contract.sub (Num b) (Num 0) = Fulfilled (Num b).
Proof.
  intros H. rewrite <- (Z.sub_0_r b) at 2.
  apply sub_representable; try apply representable_safe; rewrite ?Z.sub_0_r; cbn; lia.
Qed.

Lemma add_zero b :
  Z.abs b < 2 ^ 53 -> TokenERC20Contract.add (Num b) (Num 0) = Fulfilled (Num b).
Proof.
  intros H. rewrite <- (Z.add_0_r b) at 2.
  apply add_representable; try apply representable_safe; rewrite ?Z.add_0_r; cbn; lia.
Qed.

End Rounding.

(** ** Numerals: [parseInt] reads back what [toString] wrote *)

Section Numerals.
Import JS.

Ltac digit_case :=
  match goal with
  | |- context [digit_value 10 ?c] =>
      let v := eval vm_compute in (digit_value 10 c) in
      change (digit_value 10 c) with v; cbv iota beta
  end.

Lemma digits_from_acc d acc :
  digits_from 10 (NilEmpty.string_of_uint d) (Npos acc) = Npos (Pos.of_uint_acc d acc).
Proof.
  revert acc.
  induction d; intros acc;
    cbn [NilEmpty.string_of_uint digits_from Pos.of_uint_acc];
    [reflexivity | ..];
    digit_case; rewrite <- IHd; f_equal; lia.
Qed.

Lemma digits_from_0 d :
  digits_from 10 (NilEmpty.string_of_uint d) 0 = Pos.of_uint d.
Proof.
  induction d; cbn [NilEmpty.string_of_uint digits_from Pos.of_uint];
    [reflexivity | ..];
    digit_case; [exact IHd | ..]; rewrite <- digits_from_acc; f_equal.
Qed.

Lemma all_digits_uint d : all_digits (NilEmpty.string_of_uint d) = true.
Proof. induction d; cbn; auto. Qed.

Lemma decimal_unfold n :
  decimal n = NilEmpty.string_of_uint (N.to_uint n) /\ N.to_uint n <> Decimal.Nil.
Proof.
  unfold decimal. destruct n as [| p]; [split; [reflexivity | discriminate] |].
  cbn [N.to_uint]. pose proof (DecimalPos.Unsigned.to_uint_nonnil p) as H.
  split; [| exact H]. unfold NilZero.string_of_uint.
  destruct (Pos.to_uint p); [contradiction | reflexivity ..].
Qed.

Lemma decimal_digits n : all_digits (decimal n) = true.
Proof. destruct (decimal_unfold n) as [-> _]. apply all_digits_uint. Qed.

Lemma decimal_nonempty n : decimal n <> EmptyString.
Proof.
  destruct (decimal_unfold n) as [-> H].
  destruct (N.to_uint n); [contradiction | discriminate ..].
Qed.

Lemma digits_from_decimal n : digits_from 10 (decimal n) 0 = n.
Proof.
  destruct (decimal_unfold n) as [-> _]. rewrite digits_from_0.
  apply DecimalN.Unsigned.of_to.
Qed.

(** On a digit string nothing is trimmed, no sign and no [0x] is found. *)
Lemma parseInt_digits s :
  s <> EmptyString -> all_digits s = true ->
  parseInt s = of_Z (Z.of_N (digits_from 10 s 0)).
Proof.
  destruct s as [| c r]; [congruence |]. intros _ H.
  cbn [all_digits] in H. apply andb_prop in H as [Hc Hr].
  destruct c as [[] [] [] [] [] [] [] []]; try discriminate Hc;
    unfold parseInt, trim_start; cbn [String.length trim_start_fuel];
    try reflexivity.
  destruct r as [| c2 r2]; [reflexivity |].
  cbn [all_digits] in Hr. apply andb_prop in Hr as [Hc2 _].
  destruct c2 as [[] [] [] [] [] [] [] []]; try discriminate Hc2; reflexivity.
Qed.

Lemma parseInt_minus_digits s :
  s <> EmptyString -> all_digits s = true ->
  parseInt (String "-" s) = of_Z (- Z.of_N (digits_from 10 s 0)).
Proof.
  destruct s as [| c r]; [congruence |]. intros _ H.
  cbn [all_digits] in H. apply andb_prop in H as [Hc Hr].
  destruct c as [[] [] [] [] [] [] [] []]; try discriminate Hc;
    unfold parseInt, trim_start; cbn [String.length trim_start_fuel];
    try reflexivity.
  destruct r as [| c2 r2]; [reflexivity |].
  cbn [all_digits] in Hr. apply andb_prop in Hr as [Hc2 _].
  destruct c2 as [[] [] [] [] [] [] [] []]; try discriminate Hc2; reflexivity.
Qed.

Lemma Number_toString_safe z :
  Z.abs z < 2 ^ 53 ->
  Number_toString (Num z) =
    if z <? 0 then String "-" (decimal (Z.to_N (- z))) else decimal (Z.to_N z).
Proof.
  intros H. unfold Number_toString, render.
  destruct (Z.ltb_spec z 0).
  - destruct (Z.ltb_spec (- z) (2 ^ 53)); [reflexivity | lia].
  - destruct (Z.ltb_spec z (2 ^ 53)); [reflexivity | lia].
Qed.

Lemma parseInt_toString z :
  Z.abs z < 2 ^ 53 -> parseInt (Number_toString (Num z)) = Num z.
Proof.
  intros H. rewrite Number_toString_safe by assumption.
  destruct (Z.ltb_spec z 0).
  - rewrite parseInt_minus_digits by auto using decimal_nonempty, decimal_digits.
    rewrite digits_from_decimal, Z2N.id by lia.
    replace (- - z) with z by lia. now apply of_Z_small.
  - rewrite parseInt_digits by auto using decimal_nonempty, decimal_digits.
    rewrite digits_from_decimal, Z2N.id by lia. now apply of_Z_small.
Qed.

Lemma Number_toString_nonempty z :
  Z.abs z < 2 ^ 53 -> Number_toString (Num z) <> EmptyString.
Proof.
  intros H. rewrite Number_toString_safe by assumption.
  destruct (z <? 0); [discriminate | apply decimal_nonempty].
Qed.

End Numerals.

(** ** Keys and cells *)

Section Keys.
Import JS TokenERC20Contract.

Lemma append_separator_inj (c : ascii) (a b : string) :
  a +:+ String c EmptyString = b +:+ String c EmptyString -> a = b.
Proof.
  revert b. induction a as [| x a IH]; intros [| y b] H; cbn in H.
  - reflexivity.
  - injection H as _ H. destruct b; discriminate H.
  - injection H as _ H. destruct a; discriminate H.
  - injection H as -> H. f_equal. now apply IH.
Qed.

(** Two accounts never share a balance cell. *)
Lemma balanceKey_inj a b : balanceKey a = balanceKey b -> a = b.
Proof.
  unfold balanceKey, createCompositeKey, balancePrefix. cbn.
  intros H. injection H as H. now apply append_separator_inj in H.
Qed.

Lemma historyKey_inj a b : historyKey a = historyKey b -> a = b.
Proof.
  unfold historyKey, createCompositeKey, transactionDataPrefix. cbn.
  intros H. injection H as H. now apply append_separator_inj in H.
Qed.

Lemma is_balance_key_balanceKey a : is_balance_key (balanceKey a) = true.
Proof. reflexivity. Qed.

Lemma content_absent ctx : content (absent ctx) = None.
Proof. unfold absent. now destruct (absentValue ctx). Qed.

(** The test after [getState] gives the same answer for both ways a stub
    may report a missing key. *)
Lemma content_lookup ctx w key :
  content (match cells w !! key with Some s => Some s | None => absent ctx end)
  = holds w key.
Proof.
  unfold holds. destruct (cells w !! key); [reflexivity |].
  apply content_absent.
Qed.

Lemma content_Some s t : content (Some s) = Some t -> s = t /\ s <> EmptyString.
Proof.
  destruct s; cbn; [discriminate |]. intros [= <-].
  split; [reflexivity | discriminate].
Qed.

Lemma content_nonempty s : s <> EmptyString -> content (Some s) = Some s.
Proof. destruct s; [congruence | reflexivity]. Qed.

Lemma holds_lookup w key s : holds w key = Some s -> cells w !! key = Some s.
Proof.
  unfold holds. destruct (cells w !! key) as [t |]; [| discriminate].
  intros H. apply content_Some in H as [-> _]. reflexivity.
Qed.

Lemma balance_holds w a s :
  holds w (balanceKey a) = Some s -> balance w a = Some (parseInt s).
Proof. unfold balance. now intros ->. Qed.

Lemma stored_number z :
  Z.abs z < 2 ^ 53 ->
  parseInt <$> content (Some (Number_toString (Num z))) = Some (Num z).
Proof.
  intros H. rewrite content_nonempty by now apply Number_toString_nonempty.
  change (Some (parseInt (Number_toString (Num z))) = Some (Num z)).
  now rewrite parseInt_toString.
Qed.

(** The balances after the two [putState] calls of a transfer. *)
Lemma balance_after_puts w lg ta tb sa sb a :
  balance {| cells := <[balanceKey tb := sb]> (<[balanceKey ta := sa]> (cells w));
             logs := lg |} a =
  if decide (a = tb) then parseInt <$> content (Some sb)
  else if decide (a = ta) then parseInt <$> content (Some sa)
  else balance w a.
Proof.
  unfold balance, holds. cbn [cells].
  destruct (decide (a = tb)) as [-> | Hb].
  - now rewrite lookup_insert_eq.
  - rewrite lookup_insert_ne by (intros E; apply balanceKey_inj in E; congruence).
    destruct (decide (a = ta)) as [-> | Ha].
    + now rewrite lookup_insert_eq.
    + rewrite lookup_insert_ne by (intros E; apply balanceKey_inj in E; congruence).
      reflexivity.
Qed.

End Keys.

(** ** The sum of the balances under an overwrite *)

Section Sums.

Lemma sum_step_comm j1 j2 z1 z2 y :
  sum_step j1 z1 (sum_step j2 z2 y) = sum_step j2 z2 (sum_step j1 z1 y).
Proof. unfold sum_step. destruct (is_balance_key j1), (is_balance_key j2); lia. Qed.

Lemma sum_step_acc k s y : sum_step k s y = sum_step k s 0 + y.
Proof. unfold sum_step. destruct (is_balance_key k); lia. Qed.

Lemma sum_cells_overwrite (m : gmap string string) k s s' :
  m !! k = Some s ->
  map_fold sum_step 0 (<[k := s']> m) =
  map_fold sum_step 0 m - sum_step k s 0 + sum_step k s' 0.
Proof.
  intros H.
  rewrite <- (insert_delete_eq m k s').
  rewrite map_fold_insert_L; [| intros; apply sum_step_comm | apply lookup_delete_eq].
  rewrite (map_fold_delete_L sum_step 0 k s m); [| intros; apply sum_step_comm | exact H].
  rewrite (sum_step_acc k s' (map_fold _ _ _)), (sum_step_acc k s (map_fold _ _ _)). lia.
Qed.

Lemma sum_step_balanceKey a s : sum_step (balanceKey a) s 0 = balance_value s.
Proof. unfold sum_step. rewrite is_balance_key_balanceKey. lia. Qed.

End Sums.

(** ** Running the methods *)

Import JS TokenERC20Contract.

Lemma CheckInitialized_ok ctx w st :
  initialized w -> CheckInitialized ctx w st = Return tt st.
Proof.
  intros [s H]. unfold CheckInitialized, bind, getState.
  now rewrite content_lookup, H.
Qed.

Lemma CheckInitialized_fail ctx w st :
  holds w nameKey = None -> CheckInitialized ctx w st = Throw NotInitialized.
Proof.
  intros H. unfold CheckInitialized, bind, getState.
  now rewrite content_lookup, H.
Qed.

Ltac tx_unfold :=
  cbv beta iota delta
    [bind ret throw await getState putState getState_json putState_json setEvent
     fmap_tx];
  cbn [pending event cells logs].

Ltac tx_step :=
  first
    [ rewrite CheckInitialized_ok by assumption
    | rewrite content_lookup
    | progress tx_unfold ].

Section TransferRuns.
Variables (ctx : Context) (w : WorldState) (to value : string).

Lemma Transfer_negative :
  initialized w -> lt (parseInt value) (Num 0) = true ->
  invoke (Transfer ctx to value) w = (Failure InvalidAmount, w).
Proof.
  intros Hi Hv. unfold invoke, Transfer.
  repeat tx_step. rewrite Hv. reflexivity.
Qed.

Lemma Transfer_no_source :
  initialized w -> lt (parseInt value) (Num 0) = false ->
  holds w (balanceKey (clientID ctx)) = None ->
  invoke (Transfer ctx to value) w =
    (Failure (SourceAccountNotFound (clientID ctx)), w).
Proof.
  intros Hi Hv Hf. unfold invoke, Transfer.
  repeat tx_step. rewrite Hv.
  repeat tx_step. fold (balanceKey (clientID ctx)). rewrite Hf. reflexivity.
Qed.

Lemma Transfer_insufficient fromText :
  initialized w -> lt (parseInt value) (Num 0) = false ->
  holds w (balanceKey (clientID ctx)) = Some fromText ->
  lt (parseInt fromText) (parseInt value) = true ->
  invoke (Transfer ctx to value) w =
    (Failure (InsufficientFunds (clientID ctx)), w).
Proof.
  intros Hi Hv Hf Hlt. unfold invoke, Transfer.
  repeat tx_step. rewrite Hv.
  repeat tx_step. fold (balanceKey (clientID ctx)). rewrite Hf, Hlt. reflexivity.
Qed.

Lemma Transfer_no_destination fromText :
  initialized w -> lt (parseInt value) (Num 0) = false ->
  holds w (balanceKey (clientID ctx)) = Some fromText ->
  lt (parseInt fromText) (parseInt value) = false ->
  holds w (balanceKey to) = None ->
  invoke (Transfer ctx to value) w = (Failure (DestinationNotSignedUp to), w).
Proof.
  intros Hi Hv Hf Hlt Ht. unfold invoke, Transfer.
  repeat tx_step. rewrite Hv.
  repeat tx_step. fold (balanceKey (clientID ctx)). rewrite Hf, Hlt.
  repeat tx_step. fold (balanceKey to). rewrite Ht. reflexivity.
Qed.

(** A [Transfer] that passes every check: both balance cells are put, the
    destination last, and one element goes to the history of the caller. *)
Lemma Transfer_success fromText toText f' t' :
  initialized w ->
  lt (parseInt value) (Num 0) = false ->
  holds w (balanceKey (clientID ctx)) = Some fromText ->
  lt (parseInt fromText) (parseInt value) = false ->
  holds w (balanceKey to) = Some toText ->
  sub (parseInt fromText) (parseInt value) = Fulfilled f' ->
  add (parseInt toText) (parseInt value) = Fulfilled t' ->
  invoke (Transfer ctx to value) w =
    (Success true None,
     {| cells := <[balanceKey to := Number_toString t']>
                   (<[balanceKey (clientID ctx) := Number_toString f']> (cells w));
        logs := <[historyKey (clientID ctx) :=
                    default [] (history w (clientID ctx)) ++ [adminRecord ctx to]]>
                  (logs w) |}).
Proof.
  intros Hi Hv Hf Hlt Ht Hsub Hadd. unfold invoke, Transfer.
  repeat tx_step. rewrite Hv.
  repeat tx_step. fold (balanceKey (clientID ctx)). rewrite Hf, Hlt.
  repeat tx_step. fold (balanceKey to). rewrite Ht, Hsub.
  repeat tx_step. rewrite Hadd.
  unfold setAdminTransactionData.
  repeat tx_step. unfold history, historyKey, balanceKey, adminRecord.
  destruct (logs w !! _); reflexivity.
Qed.

End TransferRuns.

Section TransferFromRuns.
Variables (ctx : Context) (w : WorldState) (from to value : string).
Hypothesis distinct : from <> to.

Lemma eqb_distinct : String.eqb from to = false.
Proof. now apply String.eqb_neq. Qed.

Lemma TransferFrom_negative :
  lt (parseInt value) (Num 0) = true ->
  invoke (TransferFrom ctx from to value) w = (Failure InvalidAmount, w).
Proof.
  intros Hv. unfold invoke, TransferFrom. rewrite eqb_distinct, Hv. reflexivity.
Qed.

Lemma TransferFrom_no_source :
  lt (parseInt value) (Num 0) = false ->
  holds w (balanceKey from) = None ->
  invoke (TransferFrom ctx from to value) w = (Failure (SourceAccountNotFound from), w).
Proof.
  intros Hv Hf. unfold invoke, TransferFrom. rewrite eqb_distinct, Hv.
  repeat tx_step. fold (balanceKey from). rewrite Hf. reflexivity.
Qed.

Lemma TransferFrom_insufficient fromText :
  lt (parseInt value) (Num 0) = false ->
  holds w (balanceKey from) = Some fromText ->
  lt (parseInt fromText) (parseInt value) = true ->
  invoke (TransferFrom ctx from to value) w = (Failure (InsufficientFunds from), w).
Proof.
  intros Hv Hf Hlt. unfold invoke, TransferFrom. rewrite eqb_distinct, Hv.
  repeat tx_step. fold (balanceKey from). rewrite Hf, Hlt. reflexivity.
Qed.

Lemma TransferFrom_no_destination fromText :
  lt (parseInt value) (Num 0) = false ->
  holds w (balanceKey from) = Some fromText ->
  lt (parseInt fromText) (parseInt value) = false ->
  holds w (balanceKey to) = None ->
  invoke (TransferFrom ctx from to value) w = (Failure (DestinationNotSignedUp to), w).
Proof.
  intros Hv Hf Hlt Ht. unfold invoke, TransferFrom. rewrite eqb_distinct, Hv.
  repeat tx_step. fold (balanceKey from). rewrite Hf, Hlt.
  repeat tx_step. fold (balanceKey to). rewrite Ht. reflexivity.
Qed.

Lemma TransferFrom_success fromText toText f' t' :
  initialized w ->
  lt (parseInt value) (Num 0) = false ->
  holds w (balanceKey from) = Some fromText ->
  lt (parseInt fromText) (parseInt value) = false ->
  holds w (balanceKey to) = Some toText ->
  sub (parseInt fromText) (parseInt value) = Fulfilled f' ->
  add (parseInt toText) (parseInt value) = Fulfilled t' ->
  invoke (TransferFrom ctx from to value) w =
    (Success true None,
     {| cells := <[balanceKey to := Number_toString t']>
                   (<[balanceKey from := Number_toString f']> (cells w));
        logs := <[historyKey to :=
                    default [] (history w to) ++ [transferRecord ctx from to value]]>
                  (<[historyKey from :=
                       default [] (history w from) ++ [transferRecord ctx from to value]]>
                     (logs w)) |}).
Proof.
  intros Hi Hv Hf Hlt Ht Hsub Hadd. unfold invoke, TransferFrom.
  rewrite eqb_distinct, Hv.
  repeat tx_step. fold (balanceKey from). rewrite Hf, Hlt.
  repeat tx_step. fold (balanceKey to). rewrite Ht, Hsub.
  repeat tx_step. rewrite Hadd.
  unfold setFromTransactionData, setToTransactionData.
  repeat tx_step. unfold history, historyKey, balanceKey, transferRecord.
  destruct (logs w !! createCompositeKey transactionDataPrefix [from]);
    repeat tx_step;
    destruct (logs w !! createCompositeKey transactionDataPrefix [to]);
    reflexivity.
Qed.

(** Without metadata a transfer between two signed-up accounts is stopped
    only by the history writer, after both balances were put. *)
Lemma TransferFrom_uninitialized fromText toText f' t' :
  holds w nameKey = None ->
  lt (parseInt value) (Num 0) = false ->
  holds w (balanceKey from) = Some fromText ->
  lt (parseInt fromText) (parseInt value) = false ->
  holds w (balanceKey to) = Some toText ->
  sub (parseInt fromText) (parseInt value) = Fulfilled f' ->
  add (parseInt toText) (parseInt value) = Fulfilled t' ->
  invoke (TransferFrom ctx from to value) w = (Failure NotInitialized, w).
Proof.
  intros Hi Hv Hf Hlt Ht Hsub Hadd. unfold invoke, TransferFrom.
  rewrite eqb_distinct, Hv.
  repeat tx_step. fold (balanceKey from). rewrite Hf, Hlt.
  repeat tx_step. fold (balanceKey to). rewrite Ht, Hsub.
  repeat tx_step. rewrite Hadd.
  unfold setFromTransactionData.
  repeat tx_step. rewrite CheckInitialized_fail by assumption. reflexivity.
Qed.

End TransferFromRuns.

Section SupplyRuns.
Variables (ctx : Context) (w : WorldState) (amount : string).
Hypothesis started : initialized w.
Hypothesis authorized : clientMSPID ctx = "Org1MSP".

(** Every mint that is let through writes the text of a promise into the
    balance of the minter and into the total supply. *)
Lemma Mint_stores_promise_text :
  le (parseInt amount) (Num 0) = false ->
  invoke (Mint ctx amount) w =
    (Success true
       (Some ("Transfer",
              JSON_stringify
                {| ev_from := "0x0"; ev_to := clientID ctx;
                   ev_value := parseInt amount |})),
     {| cells := <[totalSupplyKey := promiseText]>
                   (<[balanceKey (clientID ctx) := promiseText]> (cells w));
        logs := logs w |}).
Proof.
  intros Ha. unfold invoke, Mint.
  repeat tx_step. rewrite authorized, Ha. reflexivity.
Qed.

Lemma Mint_breaks_conservation :
  le (parseInt amount) (Num 0) = false ->
  ~ conservation (snd (invoke (Mint ctx amount) w)).
Proof.
  intros Ha. rewrite Mint_stores_promise_text by assumption.
  unfold conservation. cbn [snd cells]. rewrite lookup_insert_eq.
  discriminate.
Qed.

Lemma Burn_stores_promise_text s t :
  holds w (balanceKey (clientID ctx)) = Some s ->
  holds w totalSupplyKey = Some t ->
  invoke (Burn ctx amount) w =
    (Success true
       (Some ("Transfer",
              JSON_stringify
                {| ev_from := clientID ctx; ev_to := "0x0";
                   ev_value := parseInt amount |})),
     {| cells := <[totalSupplyKey := promiseText]>
                   (<[balanceKey (clientID ctx) := promiseText]> (cells w));
        logs := logs w |}).
Proof.
  intros Hb Ht. unfold invoke, Burn.
  repeat tx_step. rewrite authorized, String.eqb_refl. cbn [negb].
  repeat tx_step. fold (balanceKey (clientID ctx)). rewrite Hb.
  repeat tx_step. rewrite Ht. reflexivity.
Qed.

End SupplyRuns.

(** [CheckInitialized] comes first in every operation but [Initialize]
    and [TransferFrom]. *)
Lemma NotInitialized_gate ctx w op :
  holds w nameKey = None -> gated op = true ->
  invoke (dispatch ctx op) w = (Failure NotInitialized, w).
Proof.
  intros H G. unfold invoke.
  destruct op; try discriminate G; cbn [dispatch]; unfold fmap_tx;
    unfold Mint, Burn, Transfer, signup, BalanceOf, ClientAccountBalance,
      ClientAccountID, TokenName, Symbol, Decimals, TotalSupply, getTransactionData;
    unfold bind at 1; unfold bind at 1;
    rewrite CheckInitialized_fail by assumption; reflexivity.
Qed.

(** * The claims *)

(** C1 (conservation invariant), evaluated on the shortest run that has a
    successful operation: on the initialized empty ledger, where the
    conservation law holds, the administrator mints 100.  [Mint] succeeds
    and emits its event, but what it stores as total supply and as the
    balance of the minter is the text of a promise, not a numeral: the
    stored total supply is not a number, and so not the sum of the stored
    balances. *)
Theorem conservation_broken_by_Mint :
  conservation opened /\
  fst after_first_mint =
    [Success (RBool true)
       (Some ("Transfer",
              {| json_from := "0x0"; json_to := "admin"; json_value := JSON_num 100 |}))] /\
  cells (snd after_first_mint) !! totalSupplyKey = Some promiseText /\
  cells (snd after_first_mint) !! balanceKey "admin" = Some promiseText /\
  ~ conservation (snd after_first_mint).
Proof.
  split; [reflexivity |]. split; [reflexivity |].
  split; [reflexivity |]. split; [reflexivity |].
  intros H. vm_compute in H. discriminate H.
Qed.

(** C2 (Mint(100) then Mint(50)), evaluated: both mints by the
    administrator succeed and emit Transfer events with values 100 and 50,
    but the stored balance of the minter and the stored total supply are
    the text of a promise after each of them; [BalanceOf] and
    [TotalSupply] then return NaN, not 150. *)
Theorem Mint_twice_stores_no_number :
  fst after_two_mints =
    [Success (RBool true)
       (Some ("Transfer",
              {| json_from := "0x0"; json_to := "admin"; json_value := JSON_num 100 |}));
     Success (RBool true)
       (Some ("Transfer",
              {| json_from := "0x0"; json_to := "admin"; json_value := JSON_num 50 |}));
     Success (RNumber NaN) None;
     Success (RNumber NaN) None] /\
  cells (snd after_two_mints) !! balanceKey "admin" = Some promiseText /\
  cells (snd after_two_mints) !! totalSupplyKey = Some promiseText.
Proof. repeat split; reflexivity. Qed.

(** C3 (history of the single-party Transfer), evaluated: alice and bob
    sign up and alice transfers 0 to bob.  The transfer succeeds; nothing
    is appended to the history of bob, the destination; one element is
    appended to the history of alice, the sender, and its [to] field is
    alice and its [value] field is the name of the destination, not the
    amount. *)
Theorem Transfer_history_under_sender :
  fst after_zero_transfer =
    [Success (RBool true) None; Success (RBool true) None; Success (RBool true) None] /\
  history (snd after_zero_transfer) "bob" = None /\
  history (snd after_zero_transfer) "alice" =
    Some [{| rec_from := "admin"; rec_to := "alice"; rec_value := "bob";
             rec_time := "1700000060" |}].
Proof. repeat split; reflexivity. Qed.

(** C4 (Transfer to oneself), amended with the bound that keeps the sum
    exact: in an initialized state where the caller holds [b], a
    [Transfer] of [v] to the caller's own account, with [0 <= v <= b] and
    [b + v <= 2 ^ 53 - 1], succeeds and leaves [b + v] as the stored
    balance of the caller (the destination is written last), and the sum
    of all balances grows by [v]. *)
Theorem self_Transfer_inflates ctx w value fromText b v :
  initialized w ->
  holds w (balanceKey (clientID ctx)) = Some fromText ->
  parseInt fromText = Num b ->
  parseInt value = Num v ->
  0 <= v <= b ->
  b + v <= MAX_SAFE_INTEGER ->
  exists w',
    invoke (Transfer ctx (clientID ctx) value) w = (Success true None, w') /\
    cells w' !! balanceKey (clientID ctx) = Some (Number_toString (Num (b + v))) /\
    balance w' (clientID ctx) = Some (Num (b + v)) /\
    sum_balances w' = sum_balances w + v.
Proof.
  intros Hi Hf Hb Hv Rv Rs. unfold MAX_SAFE_INTEGER in Rs.
  eexists. split; [| split; [| split]].
  - apply (Transfer_success ctx w (clientID ctx) value fromText fromText
             (Num (b - v)) (Num (b + v)));
      rewrite ?Hv, ?Hb; try assumption.
    + apply lt_zero_false. lia.
    + cbn. apply Z.ltb_ge. lia.
    + apply sub_representable; apply representable_safe; lia.
    + apply add_representable; apply representable_safe; lia.
  - cbn [cells]. now rewrite lookup_insert_eq.
  - rewrite balance_after_puts, decide_True by reflexivity.
    apply stored_number. lia.
  - unfold sum_balances. cbn [cells]. rewrite insert_insert_eq.
    rewrite (sum_cells_overwrite _ _ fromText) by now apply holds_lookup.
    rewrite !sum_step_balanceKey. unfold balance_value.
    rewrite Hb, parseInt_toString by lia. lia.
Qed.

Lemma self_Transfer_inflates_witness :
  initialized (funded "10") /\
  holds (funded "10") (balanceKey (clientID alice)) = Some "10" /\
  parseInt "10" = Num 10 /\
  parseInt "4" = Num 4 /\
  0 <= 4 <= 10 /\
  10 + 4 <= MAX_SAFE_INTEGER /\
  exists w',
    invoke (Transfer alice (clientID alice) "4") (funded "10") = (Success true None, w') /\
    cells w' !! balanceKey (clientID alice) = Some (Number_toString (Num (10 + 4))) /\
    balance w' (clientID alice) = Some (Num (10 + 4)) /\
    sum_balances w' = sum_balances (funded "10") + 4.
Proof.
  assert (Hi : initialized (funded "10")) by (exists "Token"; reflexivity).
  assert (Hf : holds (funded "10") (balanceKey (clientID alice)) = Some "10")
    by reflexivity.
  assert (Hb : parseInt "10" = Num 10) by reflexivity.
  assert (Hv : parseInt "4" = Num 4) by reflexivity.
  assert (Rv : 0 <= 4 <= 10) by lia.
  assert (Rs : 10 + 4 <= MAX_SAFE_INTEGER) by (vm_compute; discriminate).
  repeat (split; [assumption |]).
  exact (self_Transfer_inflates alice (funded "10") "4" "10" 10 4 Hi Hf Hb Hv Rv Rs).
Defined.

(** C4 as stated fails past the exact range: alice holds
    9007199254740991 and transfers 2 to herself; [2 <= b] holds, but
    [b + 2] is not a double, the guard of [add] sees the rounding, and
    the transfer is rejected with an addition overflow. *)
Lemma self_Transfer_overflow_rejected :
  initialized (funded "9007199254740991") /\
  balance (funded "9007199254740991") "alice" = Some (Num 9007199254740991) /\
  parseInt "2" = Num 2 /\
  0 <= 2 <= 9007199254740991 /\
  invoke (Transfer alice "alice" "2") (funded "9007199254740991") =
    (Failure (ArithmeticOverflow (Num 9007199254740991) (Num 2)),
     funded "9007199254740991") /\
  ~ (exists w',
       invoke (Transfer alice "alice" "2") (funded "9007199254740991") =
         (Success true None, w')).
Proof.
  assert (E : invoke (Transfer alice "alice" "2") (funded "9007199254740991") =
    (Failure (ArithmeticOverflow (Num 9007199254740991) (Num 2)),
     funded "9007199254740991")) by (vm_compute; reflexivity).
  split; [exists "Token"; reflexivity |].
  split; [vm_compute; reflexivity |].
  split; [vm_compute; reflexivity |].
  split; [lia |].
  split; [exact E |].
  intros [w' H]. rewrite E in H. discriminate H.
Qed.

(** C5 (NotInitialized before Initialize), evaluated for [TransferFrom]
    on the empty ledger, where no metadata exists: the operation fails,
    but with the error of whichever of its own checks fires first, never
    with NotInitialized. *)
Theorem TransferFrom_before_Initialize :
  holds genesis nameKey = None /\
  invoke (dispatch alice (OpTransferFrom "alice" "bob" "5")) genesis =
    (Failure (SourceAccountNotFound "alice"), genesis) /\
  invoke (dispatch alice (OpTransferFrom "alice" "bob" "-5")) genesis =
    (Failure InvalidAmount, genesis) /\
  invoke (dispatch alice (OpTransferFrom "alice" "alice" "5")) genesis =
    (Failure SelfTransferRejected, genesis).
Proof. repeat split; reflexivity. Qed.

(** C6 (TotalSupply before any mint), amended by what the stub hands
    back for the missing key: in an initialized state with no total
    supply cell, [TotalSupply] fails with a read fault when [getState]
    answers [undefined], and returns NaN, without an error, when it
    answers an empty buffer; it returns zero in neither case. *)
Theorem TotalSupply_unminted ctx w :
  initialized w ->
  cells w !! totalSupplyKey = None ->
  invoke (TotalSupply ctx) w =
    (match absentValue ctx with
     | AbsentUndefined => Failure TypeError
     | AbsentEmptyBuffer => Success NaN None
     end, w).
Proof.
  intros Hi Hs. unfold invoke, TotalSupply.
  repeat tx_step. rewrite Hs. unfold absent.
  destruct (absentValue ctx); reflexivity.
Qed.

Lemma TotalSupply_unminted_witness :
  initialized opened /\
  cells opened !! totalSupplyKey = None /\
  invoke (TotalSupply alice_undefined) opened = (Failure TypeError, opened) /\
  invoke (TotalSupply alice) opened = (Success NaN None, opened).
Proof.
  assert (Hi : initialized opened) by (exists "Token"; reflexivity).
  assert (Hs : cells opened !! totalSupplyKey = None) by reflexivity.
  split; [exact Hi |]. split; [exact Hs |]. split.
  - exact (TotalSupply_unminted alice_undefined opened Hi Hs).
  - exact (TotalSupply_unminted alice opened Hi Hs).
Defined.

(** C6 as stated fails on a peer that answers a missing key with an
    empty buffer: right after [Initialize], with nothing minted,
    [TotalSupply] returns NaN and raises no error. *)
Lemma TotalSupply_unminted_no_fault :
  initialized opened /\
  cells opened !! totalSupplyKey = None /\
  invoke (TotalSupply alice) opened = (Success NaN None, opened) /\
  ~ (exists e, fst (invoke (TotalSupply alice) opened) = Failure e).
Proof.
  split; [exists "Token"; reflexivity |].
  split; [reflexivity |].
  split; [reflexivity |].
  intros [e H]. vm_compute in H. discriminate H.
Qed.

(** Every integer below [2 ^ 53] in magnitude is kept by a balance cell. *)
Lemma reads_back_safe z : Z.abs z < 2 ^ 53 -> reads_back z.
Proof.
  intros H. split; [apply representable_safe; lia | now apply parseInt_toString].
Qed.

Lemma stored_reads_back z :
  reads_back z ->
  parseInt <$> content (Some (Number_toString (Num z))) = Some (Num z).
Proof.
  intros [_ H].
  destruct (Number_toString (Num z)) as [| c r] eqn:E.
  - vm_compute in H. discriminate H.
  - cbn [content]. change (Some (parseInt (String c r)) = Some (Num z)).
    now rewrite H.
Qed.

Lemma sub_zero_representable b :
  representable b -> sub (Num b) (Num 0) = Fulfilled (Num b).
Proof.
  intros H. rewrite <- (Z.sub_0_r b) at 2.
  apply sub_representable; rewrite ?Z.sub_0_r; [exact H | reflexivity | exact H].
Qed.

Lemma add_zero_representable b :
  representable b -> add (Num b) (Num 0) = Fulfilled (Num b).
Proof.
  intros H. rewrite <- (Z.add_0_r b) at 2.
  apply add_representable; rewrite ?Z.add_0_r; [exact H | reflexivity | exact H].
Qed.

(** C7 (negative and zero amounts), amended by what the zero half needs.
    A negative amount: [Transfer] (once the contract is initialized) and
    [TransferFrom] (between two distinct accounts) fail with InvalidAmount
    and the world state is unchanged.  Amount zero: on an initialized
    ledger, between two signed-up accounts whose stored balances are
    numbers that a balance cell keeps ([reads_back]: written with
    [toString] and read with [parseInt] they come back unchanged, as every
    integer below [2 ^ 53] in magnitude does), the source balance not
    negative, both succeed, every account has the balance it had, and a
    history element is appended ([Transfer] under the caller,
    [TransferFrom] under both accounts). *)
Theorem transfer_negative_and_zero ctx w from to value :
  (lt (parseInt value) (Num 0) = true ->
     (initialized w ->
        invoke (Transfer ctx to value) w = (Failure InvalidAmount, w)) /\
     (from <> to ->
        invoke (TransferFrom ctx from to value) w = (Failure InvalidAmount, w)))
  /\
  (forall fromText toText b t,
     parseInt value = Num 0 ->
     initialized w ->
     holds w (balanceKey from) = Some fromText -> parseInt fromText = Num b ->
     holds w (balanceKey to) = Some toText -> parseInt toText = Num t ->
     0 <= b -> reads_back b -> reads_back t ->
     (clientID ctx = from ->
        exists w',
          invoke (Transfer ctx to value) w = (Success true None, w') /\
          (forall a, balance w' a = balance w a) /\
          history w' from = Some (default [] (history w from) ++ [adminRecord ctx to])) /\
     (from <> to ->
        exists w',
          invoke (TransferFrom ctx from to value) w = (Success true None, w') /\
          (forall a, balance w' a = balance w a) /\
          history w' from =
            Some (default [] (history w from) ++ [transferRecord ctx from to value]) /\
          history w' to =
            Some (default [] (history w to) ++ [transferRecord ctx from to value]))).
Proof.
  split.
  - intros Hv. split.
    + intros Hi. now apply Transfer_negative.
    + intros Hd. now apply TransferFrom_negative.
  - intros fromText toText b t Hv Hi Hf Hb Ht Htt Rb Kb Kt.
    assert (Hbal : forall lg a,
      balance {| cells := <[balanceKey to := Number_toString (Num t)]>
                            (<[balanceKey from := Number_toString (Num b)]> (cells w));
                 logs := lg |} a = balance w a).
    { intros lg a. rewrite balance_after_puts, !stored_reads_back by assumption.
      destruct (decide (a = to)) as [-> | _].
      - rewrite (balance_holds _ _ _ Ht). now rewrite Htt.
      - destruct (decide (a = from)) as [-> | _]; [| reflexivity].
        rewrite (balance_holds _ _ _ Hf). now rewrite Hb. }
    split.
    + intros Hc. subst from. eexists. split; [| split].
      * apply (Transfer_success ctx w to value fromText toText (Num b) (Num t));
          rewrite ?Hv, ?Hb, ?Htt; try assumption;
          [reflexivity | now apply lt_zero_false
          | apply sub_zero_representable, Kb | apply add_zero_representable, Kt].
      * apply Hbal.
      * unfold history at 1. cbn [logs]. now rewrite lookup_insert_eq.
    + intros Hd. eexists. split; [| split; [| split]].
      * apply (TransferFrom_success ctx w from to value Hd fromText toText (Num b) (Num t));
          rewrite ?Hv, ?Hb, ?Htt; try assumption;
          [reflexivity | now apply lt_zero_false
          | apply sub_zero_representable, Kb | apply add_zero_representable, Kt].
      * apply Hbal.
      * unfold history at 1. cbn [logs].
        rewrite lookup_insert_ne by (intros E; apply historyKey_inj in E; congruence).
        now rewrite lookup_insert_eq.
      * unfold history at 1. cbn [logs]. now rewrite lookup_insert_eq.
Qed.

Lemma transfer_negative_and_zero_witness :
  lt (parseInt "-1") (Num 0) = true /\
  parseInt "0" = Num 0 /\
  initialized (funded "10") /\
  holds (funded "10") (balanceKey "alice") = Some "10" /\ parseInt "10" = Num 10 /\
  holds (funded "10") (balanceKey "bob") = Some "3" /\ parseInt "3" = Num 3 /\
  0 <= 10 /\ reads_back 10 /\ reads_back 3 /\
  invoke (Transfer alice "bob" "-1") (funded "10") = (Failure InvalidAmount, funded "10") /\
  invoke (TransferFrom org1_admin "alice" "bob" "-1") (funded "10") =
    (Failure InvalidAmount, funded "10") /\
  (exists w',
     invoke (Transfer alice "bob" "0") (funded "10") = (Success true None, w') /\
     (forall a, balance w' a = balance (funded "10") a) /\
     history w' "alice" = Some ([] ++ [adminRecord alice "bob"])) /\
  (exists w',
     invoke (TransferFrom org1_admin "alice" "bob" "0") (funded "10") =
       (Success true None, w') /\
     (forall a, balance w' a = balance (funded "10") a) /\
     history w' "alice" = Some ([] ++ [transferRecord org1_admin "alice" "bob" "0"]) /\
     history w' "bob" = Some ([] ++ [transferRecord org1_admin "alice" "bob" "0"])).
Proof.
  assert (Hi : initialized (funded "10")) by (exists "Token"; reflexivity).
  assert (Hd : "alice" <> "bob") by discriminate.
  assert (R10 : 0 <= 10) by lia.
  assert (K10 : reads_back 10) by (split; reflexivity).
  assert (K3 : reads_back 3) by (split; reflexivity).
  destruct (transfer_negative_and_zero alice (funded "10") "alice" "bob" "-1")
    as [N1 _].
  destruct (transfer_negative_and_zero org1_admin (funded "10") "alice" "bob" "-1")
    as [N2 _].
  destruct (transfer_negative_and_zero alice (funded "10") "alice" "bob" "0")
    as [_ Z1].
  destruct (transfer_negative_and_zero org1_admin (funded "10") "alice" "bob" "0")
    as [_ Z2].
  split; [reflexivity |]. split; [reflexivity |]. split; [exact Hi |].
  split; [reflexivity |]. split; [reflexivity |].
  split; [reflexivity |]. split; [reflexivity |].
  split; [exact R10 |]. split; [exact K10 |]. split; [exact K3 |].
  split; [exact (proj1 (N1 eq_refl) Hi) |].
  split; [exact (proj2 (N2 eq_refl) Hd) |].
  split.
  - exact (proj1 (Z1 "10" "3" 10 3 eq_refl Hi eq_refl eq_refl eq_refl eq_refl R10 K10 K3)
             eq_refl).
  - exact (proj2 (Z2 "10" "3" 10 3 eq_refl Hi eq_refl eq_refl eq_refl eq_refl R10 K10 K3)
             Hd).
Defined.

(** C7 as stated fails for amount zero in two ways.  On the ledger the
    contract itself reaches by [Initialize], [Mint] of 100, [signup] of
    bob: the balance cell of the minter holds the text of a promise, which
    is no number, and the minter's [Transfer] of 0 to bob is rejected by
    the guard of [sub].  And on a ledger where alice holds 10^21: her
    [Transfer] of 0 to bob succeeds, but her balance is written back as
    1e+21, which reads as 1. *)
Lemma zero_transfer_rejected_or_lossy :
  fst after_mint_zero_transfer =
    [Success (RBool true)
       (Some ("Transfer",
              {| json_from := "0x0"; json_to := "admin"; json_value := JSON_num 100 |}));
     Success (RBool true) None;
     Failure (ArithmeticUnderflow NaN (Num 0))] /\
  parseInt "0" = Num 0 /\
  balance (funded "1000000000000000000000") "alice" = Some (Num (10 ^ 21)) /\
  fst (invoke (Transfer alice "bob" "0") (funded "1000000000000000000000")) =
    Success true None /\
  balance (snd (invoke (Transfer alice "bob" "0") (funded "1000000000000000000000")))
    "alice" = Some (Num 1).
Proof. repeat split; vm_compute; reflexivity. Qed.

(** C8 (insufficient funds, destination not signed up).  For an amount
    that is not negative and a source that has a balance cell: when the
    source balance is less than the amount, [Transfer] (initialized, the
    caller being the source) and [TransferFrom] (distinct accounts) fail
    with InsufficientFunds; when it is not, and the destination has no
    balance cell, they fail with DestinationNotSignedUp.  In each case
    the world state is the one before the call: no balance is created. *)
Theorem transfer_rejections ctx w from to value fromText :
  lt (parseInt value) (Num 0) = false ->
  holds w (balanceKey from) = Some fromText ->
  (lt (parseInt fromText) (parseInt value) = true ->
     (initialized w -> clientID ctx = from ->
        invoke (Transfer ctx to value) w = (Failure (InsufficientFunds from), w)) /\
     (from <> to ->
        invoke (TransferFrom ctx from to value) w = (Failure (InsufficientFunds from), w)))
  /\
  (lt (parseInt fromText) (parseInt value) = false ->
   holds w (balanceKey to) = None ->
     (initialized w -> clientID ctx = from ->
        invoke (Transfer ctx to value) w = (Failure (DestinationNotSignedUp to), w)) /\
     (from <> to ->
        invoke (TransferFrom ctx from to value) w =
          (Failure (DestinationNotSignedUp to), w))).
Proof.
  intros Hv Hf. split.
  - intros Hlt. split.
    + intros Hi <-. now apply Transfer_insufficient with fromText.
    + intros Hd. now apply TransferFrom_insufficient with fromText.
  - intros Hlt Ht. split.
    + intros Hi <-. now apply Transfer_no_destination with fromText.
    + intros Hd. now apply TransferFrom_no_destination with fromText.
Qed.

Lemma transfer_rejections_witness :
  lt (parseInt "20") (Num 0) = false /\
  lt (parseInt "5") (Num 0) = false /\
  holds (funded "10") (balanceKey "alice") = Some "10" /\
  invoke (Transfer alice "bob" "20") (funded "10") =
    (Failure (InsufficientFunds "alice"), funded "10") /\
  invoke (TransferFrom org1_admin "alice" "bob" "20") (funded "10") =
    (Failure (InsufficientFunds "alice"), funded "10") /\
  invoke (Transfer alice "carol" "5") (funded "10") =
    (Failure (DestinationNotSignedUp "carol"), funded "10") /\
  invoke (TransferFrom org1_admin "alice" "carol" "5") (funded "10") =
    (Failure (DestinationNotSignedUp "carol"), funded "10").
Proof.
  assert (Hi : initialized (funded "10")) by (exists "Token"; reflexivity).
  assert (Hf : holds (funded "10") (balanceKey "alice") = Some "10") by reflexivity.
  split; [reflexivity |]. split; [reflexivity |]. split; [exact Hf |].
  destruct (transfer_rejections alice (funded "10") "alice" "bob" "20" "10"
              eq_refl Hf) as [[T1 _] _]; [reflexivity |].
  destruct (transfer_rejections org1_admin (funded "10") "alice" "bob" "20" "10"
              eq_refl Hf) as [[_ T2] _]; [reflexivity |].
  destruct (transfer_rejections alice (funded "10") "alice" "carol" "5" "10"
              eq_refl Hf) as [_ [T3 _]]; [reflexivity | reflexivity |].
  destruct (transfer_rejections org1_admin (funded "10") "alice" "carol" "5" "10"
              eq_refl Hf) as [_ [_ T4]]; [reflexivity | reflexivity |].
  split; [exact (T1 Hi eq_refl) |].
  split; [apply T2; discriminate |].
  split; [exact (T3 Hi eq_refl) |].
  apply T4; discriminate.
Defined.

(** C9 (TransferFrom to the same account): whatever the state, the
    caller and the value, [TransferFrom] with [from] equal to [to] fails
    with SelfTransferRejected, and the world state is unchanged. *)
Theorem TransferFrom_self_rejected ctx w account value :
  invoke (TransferFrom ctx account account value) w = (Failure SelfTransferRejected, w).
Proof. unfold invoke, TransferFrom. now rewrite String.eqb_refl. Qed.

(** C10 (sub lets negative results through), amended by asking that the
    difference be a double as well: for non-negative doubles [a < b]
    whose difference [a - b] is a double, the promise of [sub(a, b)] is
    fulfilled with the negative value [a - b]. *)
Theorem sub_negative_result a b :
  0 <= a < b ->
  representable a -> representable b -> representable (a - b) ->
  sub (Num a) (Num b) = Fulfilled (Num (a - b)) /\ a - b < 0.
Proof.
  intros R Ha Hb Hc. split; [now apply sub_representable | lia].
Qed.

Lemma sub_negative_result_witness :
  0 <= 3 < 10 /\ representable 3 /\ representable 10 /\ representable (3 - 10) /\
  sub (Num 3) (Num 10) = Fulfilled (Num (3 - 10)) /\ 3 - 10 < 0.
Proof.
  assert (R : 0 <= 3 < 10) by lia.
  assert (Ha : representable 3) by reflexivity.
  assert (Hb : representable 10) by reflexivity.
  assert (Hc : representable (3 - 10)) by reflexivity.
  split; [exact R |]. split; [exact Ha |]. split; [exact Hb |]. split; [exact Hc |].
  exact (sub_negative_result 3 10 R Ha Hb Hc).
Defined.

(** C10 as stated fails when the difference has to be rounded: 1 and
    9007199254740994 are doubles, their difference is not, and the
    promise of [sub] is rejected. *)
Lemma sub_rounded_difference_rejected :
  0 <= 1 < 9007199254740994 /\
  representable 1 /\ representable 9007199254740994 /\
  sub (Num 1) (Num 9007199254740994) =
    Rejected (ArithmeticUnderflow (Num 1) (Num 9007199254740994)) /\
  sub (Num 1) (Num 9007199254740994) <> Fulfilled (Num (1 - 9007199254740994)).
Proof.
  split; [lia |].
  split; [vm_compute; reflexivity |].
  split; [vm_compute; reflexivity |].
  split; [vm_compute; reflexivity |].
  vm_compute. discriminate.
Qed.

(** * Further properties of the contract *)

Lemma balanceKey_not_option a :
  balanceKey a <> nameKey /\ balanceKey a <> symbolKey /\
  balanceKey a <> decimalsKey /\ balanceKey a <> totalSupplyKey.
Proof. repeat split; discriminate. Qed.

Lemma CheckInitialized_cases ctx w st :
  (initialized w /\ CheckInitialized ctx w st = Return tt st) \/
  (holds w nameKey = None /\ CheckInitialized ctx w st = Throw NotInitialized).
Proof.
  destruct (holds w nameKey) as [s |] eqn:H.
  - left. assert (Hi : initialized w) by (exists s; exact H).
    split; [exact Hi | now apply CheckInitialized_ok].
  - right. split; [reflexivity | now apply CheckInitialized_fail].
Qed.

Lemma Initialize_run ctx w name symbol decimals :
  clientMSPID ctx = "Org1MSP" -> holds w nameKey = None ->
  invoke (Initialize ctx name symbol decimals) w =
    (Success true None,
     {| cells := <[decimalsKey := decimals]>
                   (<[symbolKey := symbol]> (<[nameKey := name]> (cells w)));
        logs := logs w |}).
Proof.
  intros Hm Hn. unfold invoke, Initialize. rewrite Hm, String.eqb_refl. cbn [negb].
  repeat tx_step. rewrite Hn. reflexivity.
Qed.

(** X1 ([Initialize], authorization): whatever the ledger holds, a caller
    whose organization is not Org1MSP is refused with Unauthorized and
    nothing is written. *)
Theorem Initialize_unauthorized ctx w name symbol decimals :
  clientMSPID ctx <> "Org1MSP" ->
  invoke (Initialize ctx name symbol decimals) w = (Failure Unauthorized, w).
Proof.
  intros H. unfold invoke, Initialize.
  apply String.eqb_neq in H. rewrite H. reflexivity.
Qed.

Lemma Initialize_unauthorized_witness :
  clientMSPID alice <> "Org1MSP" /\
  invoke (Initialize alice "Coin" "CN" "0") genesis = (Failure Unauthorized, genesis).
Proof.
  assert (H : clientMSPID alice <> "Org1MSP") by discriminate.
  split; [exact H |].
  exact (Initialize_unauthorized alice genesis "Coin" "CN" "0" H).
Defined.

Lemma holds_name_after_Initialize w name symbol decimals lg :
  name <> EmptyString ->
  holds {| cells := <[decimalsKey := decimals]>
                      (<[symbolKey := symbol]> (<[nameKey := name]> (cells w)));
           logs := lg |} nameKey = Some name.
Proof.
  intros Hn. unfold holds. cbn [cells].
  rewrite lookup_insert_ne by discriminate.
  rewrite lookup_insert_ne by discriminate.
  rewrite lookup_insert_eq. now apply content_nonempty.
Qed.

(** X2 ([Initialize], at most once): on a ledger without metadata the
    administrator's [Initialize] with a non-empty name succeeds and the
    name is stored; any later [Initialize], by whoever and with whatever
    arguments, fails (Unauthorized or AlreadyInitialized) and leaves the
    ledger as the first call left it. *)
Theorem Initialize_once ctx ctx' w name symbol decimals name' symbol' decimals' :
  clientMSPID ctx = "Org1MSP" ->
  holds w nameKey = None ->
  name <> EmptyString ->
  invoke (Initialize ctx name symbol decimals) w =
    (Success true None, after (Initialize ctx name symbol decimals) w) /\
  holds (after (Initialize ctx name symbol decimals) w) nameKey = Some name /\
  exists e,
    invoke (Initialize ctx' name' symbol' decimals')
      (after (Initialize ctx name symbol decimals) w) =
      (Failure e, after (Initialize ctx name symbol decimals) w) /\
    (e = Unauthorized \/ e = AlreadyInitialized).
Proof.
  intros Hm Hw Hn. unfold after. rewrite (Initialize_run _ _ _ _ _ Hm Hw). cbn [snd].
  pose proof (holds_name_after_Initialize w name symbol decimals (logs w) Hn) as Hh.
  split; [reflexivity |]. split; [exact Hh |].
  unfold invoke, Initialize.
  destruct (String.eqb (clientMSPID ctx') "Org1MSP") eqn:E; cbn [negb].
  - exists AlreadyInitialized. split; [| now right].
    unfold bind at 1. unfold getState. rewrite content_lookup, Hh. reflexivity.
  - exists Unauthorized. split; [reflexivity | now left].
Qed.

Lemma holds_insert m lg k s k' :
  holds {| cells := <[k := s]> m; logs := lg |} k' =
  if decide (k = k') then content (Some s) else content (m !! k').
Proof.
  unfold holds. cbn [cells]. destruct (decide (k = k')) as [-> | H].
  - now rewrite lookup_insert_eq.
  - now rewrite lookup_insert_ne.
Qed.

Lemma getState_present ctx w key s st :
  cells w !! key = Some s -> getState ctx key w st = Return (Some s) st.
Proof. intros H. unfold getState. now rewrite H. Qed.

(** X3 ([Initialize] then the accessors): after a successful
    [Initialize] with non-empty arguments, [TokenName] and [Symbol] return
    the name and the symbol given, and [Decimals] returns [parseInt] of
    the decimals text, for any caller. *)
Theorem Initialize_then_read ctx reader w name symbol decimals :
  clientMSPID ctx = "Org1MSP" ->
  holds w nameKey = None ->
  name <> EmptyString -> symbol <> EmptyString -> decimals <> EmptyString ->
  invoke (TokenName reader) (after (Initialize ctx name symbol decimals) w) =
    (Success name None, after (Initialize ctx name symbol decimals) w) /\
  invoke (Symbol reader) (after (Initialize ctx name symbol decimals) w) =
    (Success symbol None, after (Initialize ctx name symbol decimals) w) /\
  invoke (Decimals reader) (after (Initialize ctx name symbol decimals) w) =
    (Success (parseInt decimals) None, after (Initialize ctx name symbol decimals) w).
Proof.
  intros Hm Hw Hn _ _. unfold after. rewrite (Initialize_run _ _ _ _ _ Hm Hw). cbn [snd].
  pose proof (holds_name_after_Initialize w name symbol decimals (logs w) Hn) as Hh.
  assert (Hi : initialized
    {| cells := <[decimalsKey := decimals]>
                  (<[symbolKey := symbol]> (<[nameKey := name]> (cells w)));
       logs := logs w |}) by (exists name; exact Hh).
  split; [| split].
  - unfold invoke, TokenName. unfold bind at 1. rewrite CheckInitialized_ok by exact Hi.
    unfold bind. rewrite (getState_present _ _ _ name); [reflexivity |].
    cbn [cells]. rewrite !lookup_insert_ne by discriminate. apply lookup_insert_eq.
  - unfold invoke, Symbol. unfold bind at 1. rewrite CheckInitialized_ok by exact Hi.
    unfold bind. rewrite (getState_present _ _ _ symbol); [reflexivity |].
    cbn [cells]. rewrite lookup_insert_ne by discriminate. apply lookup_insert_eq.
  - unfold invoke, Decimals. unfold bind at 1. rewrite CheckInitialized_ok by exact Hi.
    unfold bind at 1. rewrite (getState_present _ _ _ decimals); [reflexivity |].
    cbn [cells]. apply lookup_insert_eq.
Qed.

(** X4 ([Initialize] with an empty name): the call succeeds, but the name
    cell it wrote is empty, which [CheckInitialized] and [Initialize]
    itself read as no metadata: the contract is still not initialized and
    the administrator can run [Initialize] again, with other options. *)
Theorem Initialize_empty_name ctx ctx' w symbol decimals name' symbol' decimals' :
  clientMSPID ctx = "Org1MSP" ->
  clientMSPID ctx' = "Org1MSP" ->
  holds w nameKey = None ->
  name' <> EmptyString ->
  invoke (Initialize ctx "" symbol decimals) w =
    (Success true None, after (Initialize ctx "" symbol decimals) w) /\
  holds (after (Initialize ctx "" symbol decimals) w) nameKey = None /\
  invoke (Initialize ctx' name' symbol' decimals')
    (after (Initialize ctx "" symbol decimals) w) =
    (Success true None,
     after (Initialize ctx' name' symbol' decimals')
       (after (Initialize ctx "" symbol decimals) w)) /\
  holds (after (Initialize ctx' name' symbol' decimals')
           (after (Initialize ctx "" symbol decimals) w)) nameKey = Some name'.
Proof.
  intros Hm Hm' Hw Hn. unfold after.
  rewrite (Initialize_run _ _ _ _ _ Hm Hw). cbn [snd].
  assert (Hh : holds
    {| cells := <[decimalsKey := decimals]>
                  (<[symbolKey := symbol]> (<[nameKey := EmptyString]> (cells w)));
       logs := logs w |} nameKey = None).
  { unfold holds. cbn [cells]. rewrite !lookup_insert_ne by discriminate.
    now rewrite lookup_insert_eq. }
  split; [reflexivity |]. split; [exact Hh |].
  rewrite (Initialize_run _ _ _ _ _ Hm' Hh). cbn [snd].
  split; [reflexivity |]. now apply holds_name_after_Initialize.
Qed.

Lemma signup_run ctx w userAddress :
  initialized w ->
  invoke (signup ctx userAddress) w =
    (Success true None,
     {| cells := <[balanceKey userAddress :=
                     Number_toString
                       match holds w (balanceKey userAddress) with
                       | None => Num 0
                       | Some s => parseInt s
                       end]> (cells w);
        logs := logs w |}).
Proof.
  intros Hi. unfold invoke, signup. repeat tx_step. reflexivity.
Qed.

Lemma balance_after_put w lg k s a :
  balance {| cells := <[balanceKey k := s]> (cells w); logs := lg |} a =
  if decide (a = k) then parseInt <$> content (Some s) else balance w a.
Proof.
  unfold balance, holds. cbn [cells].
  destruct (decide (a = k)) as [-> | H].
  - now rewrite lookup_insert_eq.
  - rewrite lookup_insert_ne by (intros E; apply balanceKey_inj in E; congruence).
    reflexivity.
Qed.

Lemma sum_cells_fresh (m : gmap string string) k s :
  m !! k = None ->
  map_fold sum_step 0 (<[k := s]> m) = map_fold sum_step 0 m + sum_step k s 0.
Proof.
  intros H.
  rewrite map_fold_insert_L; [| intros; apply sum_step_comm | exact H].
  rewrite (sum_step_acc k s (map_fold _ _ _)). lia.
Qed.

Lemma initialized_after_put w lg k s :
  initialized w ->
  initialized {| cells := <[balanceKey k := s]> (cells w); logs := lg |}.
Proof.
  intros [n H]. exists n. rewrite holds_insert.
  destruct (decide (balanceKey k = nameKey)) as [E | _]; [discriminate E | exact H].
Qed.

Lemma balance_value_zero : balance_value "0" = 0.
Proof. vm_compute. reflexivity. Qed.

Lemma balance_value_empty : balance_value EmptyString = 0.
Proof. vm_compute. reflexivity. Qed.

Lemma Number_toString_zero : Number_toString (Num 0) = "0".
Proof. vm_compute. reflexivity. Qed.

(** X6 ([signup] of a new account): on an initialized ledger, [signup]
    of an address with no balance succeeds by any caller, gives the
    address the balance 0, leaves every other balance, the sum of the
    balances and the histories as they were. *)
Theorem signup_new_account ctx w userAddress :
  initialized w ->
  holds w (balanceKey userAddress) = None ->
  invoke (signup ctx userAddress) w =
    (Success true None, after (signup ctx userAddress) w) /\
  balance (after (signup ctx userAddress) w) userAddress = Some (Num 0) /\
  (forall a, a <> userAddress ->
     balance (after (signup ctx userAddress) w) a = balance w a) /\
  sum_balances (after (signup ctx userAddress) w) = sum_balances w /\
  logs (after (signup ctx userAddress) w) = logs w.
Proof.
  intros Hi Hn. unfold after. rewrite (signup_run _ _ _ Hi), Hn. cbn [snd].
  rewrite Number_toString_zero.
  split; [reflexivity |]. split; [| split; [| split]].
  - rewrite balance_after_put, decide_True by reflexivity. reflexivity.
  - intros a Ha. rewrite balance_after_put, decide_False by exact Ha. reflexivity.
  - unfold sum_balances. cbn [cells].
    destruct (cells w !! balanceKey userAddress) as [s |] eqn:E.
    + rewrite (sum_cells_overwrite _ _ s) by exact E.
      rewrite !sum_step_balanceKey.
      unfold holds in Hn. rewrite E in Hn.
      destruct s; [| discriminate Hn].
      rewrite balance_value_zero, balance_value_empty. lia.
    + rewrite sum_cells_fresh by exact E. rewrite sum_step_balanceKey.
      rewrite balance_value_zero. lia.
  - reflexivity.
Qed.

(** X7 ([signup] of an existing account): signing up an address whose
    balance is an integer of the exact range succeeds and changes no
    balance: the cell is rewritten with the numeral of its own value, not
    reset to zero. *)
Theorem signup_keeps_balance ctx w userAddress s b :
  initialized w ->
  holds w (balanceKey userAddress) = Some s ->
  parseInt s = Num b ->
  - MAX_SAFE_INTEGER <= b <= MAX_SAFE_INTEGER ->
  invoke (signup ctx userAddress) w =
    (Success true None, after (signup ctx userAddress) w) /\
  (forall a, balance (after (signup ctx userAddress) w) a = balance w a) /\
  sum_balances (after (signup ctx userAddress) w) = sum_balances w.
Proof.
  intros Hi Hs Hb R. unfold MAX_SAFE_INTEGER in R.
  unfold after. rewrite (signup_run _ _ _ Hi), Hs, Hb. cbn [snd].
  split; [reflexivity |]. split.
  - intros a. rewrite balance_after_put.
    destruct (decide (a = userAddress)) as [-> | _]; [| reflexivity].
    rewrite stored_number by lia. rewrite (balance_holds _ _ _ Hs). now rewrite Hb.
  - unfold sum_balances. cbn [cells].
    rewrite (sum_cells_overwrite _ _ s) by now apply holds_lookup.
    rewrite !sum_step_balanceKey. unfold balance_value.
    rewrite Hb, parseInt_toString by lia. lia.
Qed.

Lemma BalanceOf_run ctx w owner :
  initialized w ->
  invoke (BalanceOf ctx owner) w =
    (match holds w (balanceKey owner) with
     | Some s => Success (parseInt s) None
     | None => Failure (AccountNotFound owner)
     end, w).
Proof.
  intros Hi. unfold invoke, BalanceOf. repeat tx_step.
  fold (balanceKey owner). destruct (holds w (balanceKey owner)); reflexivity.
Qed.

(** X9 ([BalanceOf], [ClientAccountBalance], [ClientAccountID]): on an
    initialized ledger [BalanceOf] returns the number parsed from the
    balance cell of the owner, or fails with AccountNotFound when there is
    none, and never changes the ledger; [ClientAccountBalance] is
    [BalanceOf] of the caller's own identity, which [ClientAccountID]
    returns. *)
Theorem BalanceOf_reads_cell ctx w owner :
  initialized w ->
  invoke (BalanceOf ctx owner) w =
    (match balance w owner with
     | Some n => Success n None
     | None => Failure (AccountNotFound owner)
     end, w) /\
  invoke (ClientAccountBalance ctx) w = invoke (BalanceOf ctx (clientID ctx)) w /\
  invoke (ClientAccountID ctx) w = (Success (clientID ctx) None, w).
Proof.
  intros Hi. split; [| split].
  - rewrite (BalanceOf_run _ _ _ Hi). unfold balance.
    destruct (holds w (balanceKey owner)); reflexivity.
  - reflexivity.
  - unfold invoke, ClientAccountID. repeat tx_step. reflexivity.
Qed.

(** X8 ([signup] then [BalanceOf]): before [signup], [BalanceOf] of the
    address fails with AccountNotFound; after it, [BalanceOf] returns 0. *)
Theorem signup_then_BalanceOf ctx reader w userAddress :
  initialized w ->
  holds w (balanceKey userAddress) = None ->
  invoke (BalanceOf reader userAddress) w = (Failure (AccountNotFound userAddress), w) /\
  invoke (BalanceOf reader userAddress) (after (signup ctx userAddress) w) =
    (Success (Num 0) None, after (signup ctx userAddress) w).
Proof.
  intros Hi Hn. split.
  - rewrite (BalanceOf_run _ _ _ Hi), Hn. reflexivity.
  - unfold after. rewrite (signup_run _ _ _ Hi), Hn. cbn [snd].
    rewrite BalanceOf_run by now apply initialized_after_put.
    rewrite holds_insert, decide_True by reflexivity. reflexivity.
Qed.

Section PureReads.

Lemma pure_ret {A} (a : A) : pure_read (ret a).
Proof. intros snap st. reflexivity. Qed.

Lemma pure_throw {A} e : pure_read (@throw A e).
Proof. intros snap st. exact I. Qed.

Lemma pure_bind {A B} (m : Tx A) (k : A -> Tx B) :
  pure_read m -> (forall a, pure_read (k a)) -> pure_read (bind m k).
Proof.
  intros Hm Hk snap st. unfold bind. specialize (Hm snap st).
  destruct (m snap st) as [a st' | e]; [| exact I].
  subst st'. apply Hk.
Qed.

Lemma pure_getState ctx key : pure_read (getState ctx key).
Proof. intros snap st. reflexivity. Qed.

Lemma pure_getState_json key : pure_read (getState_json key).
Proof. intros snap st. reflexivity. Qed.

Lemma pure_toString bytes : pure_read (toString bytes).
Proof. destruct bytes; [apply pure_ret | apply pure_throw]. Qed.

Lemma pure_CheckInitialized ctx : pure_read (CheckInitialized ctx).
Proof.
  apply pure_bind; [apply pure_getState |].
  intros b. destruct (content b); [apply pure_ret | apply pure_throw].
Qed.

Lemma pure_dispatch ctx op : read_only op = true -> pure_read (dispatch ctx op).
Proof.
  intros H. destruct op; try discriminate H; cbn [dispatch]; unfold fmap_tx;
    (apply pure_bind; [| intros; apply pure_ret]);
    unfold BalanceOf, ClientAccountBalance, ClientAccountID, TokenName, Symbol,
      Decimals, TotalSupply, getTransactionData;
    repeat first
      [ apply pure_CheckInitialized | apply pure_getState | apply pure_getState_json
      | apply pure_toString | apply pure_ret | apply pure_throw
      | apply pure_bind; [| intros ?]
      | match goal with
        | |- pure_read (match ?x with _ => _ end) => destruct x
        end ].
Qed.

End PureReads.

(** X10 (the accessors only read): [BalanceOf], [ClientAccountBalance],
    [ClientAccountID], [TokenName], [Symbol], [Decimals], [TotalSupply] and
    [getTransactionData] leave the world state as it was, whether they
    return or throw, and set no event. *)
Theorem read_only_operations ctx w op :
  read_only op = true ->
  snd (invoke (dispatch ctx op) w) = w /\
  forall r ev, fst (invoke (dispatch ctx op) w) = Success r ev -> ev = None.
Proof.
  intros H. unfold invoke.
  pose proof (pure_dispatch ctx op H w {| pending := w; event := None |}) as P.
  destruct (dispatch ctx op w _) as [a st | e].
  - subst st. cbn. split; [reflexivity |]. now intros r ev [= _ <-].
  - cbn. split; [reflexivity |]. intros r ev [=].
Qed.

Lemma read_only_operations_witness :
  read_only (OpBalanceOf "alice") = true /\
  snd (invoke (dispatch bob (OpBalanceOf "alice")) (funded "10")) = funded "10" /\
  forall r ev,
    fst (invoke (dispatch bob (OpBalanceOf "alice")) (funded "10")) = Success r ev ->
    ev = None.
Proof.
  split; [reflexivity |].
  exact (read_only_operations bob (funded "10") (OpBalanceOf "alice") eq_refl).
Defined.

Lemma sum_after_transfer w lg from to fromText toText b t b' t' :
  from <> to ->
  holds w (balanceKey from) = Some fromText -> parseInt fromText = Num b ->
  holds w (balanceKey to) = Some toText -> parseInt toText = Num t ->
  Z.abs b' < 2 ^ 53 -> Z.abs t' < 2 ^ 53 ->
  sum_balances {| cells := <[balanceKey to := Number_toString (Num t')]>
                             (<[balanceKey from := Number_toString (Num b')]> (cells w));
                  logs := lg |} =
  sum_balances w - b - t + b' + t'.
Proof.
  intros Hd Hf Hb Ht Htt Rb Rt. unfold sum_balances. cbn [cells].
  rewrite (sum_cells_overwrite _ _ toText).
  2:{ rewrite lookup_insert_ne by (intros E; apply balanceKey_inj in E; congruence).
      now apply holds_lookup. }
  rewrite (sum_cells_overwrite _ _ fromText) by now apply holds_lookup.
  rewrite !sum_step_balanceKey. unfold balance_value.
  rewrite Hb, Htt, !parseInt_toString by assumption. lia.
Qed.

Lemma option_cell_after_puts w a b s s' key :
  key = nameKey \/ key = symbolKey \/ key = decimalsKey \/ key = totalSupplyKey ->
  (<[balanceKey b := s']> (<[balanceKey a := s]> (cells w))) !! key = cells w !! key.
Proof.
  intros H.
  rewrite !lookup_insert_ne; [reflexivity | |];
    intros E; destruct H as [-> | [-> | [-> | ->]]]; discriminate E.
Qed.

(** X11 ([TransferFrom] moves the amount): between two distinct signed-up
    accounts with balances [b] and [t] of the exact range, for an amount
    [0 <= v <= b] with [t + v] in the exact range, [TransferFrom] succeeds
    whoever calls it: the source holds [b - v], the destination [t + v],
    every other balance, the sum of the balances and the total supply
    cell are unchanged. *)
Theorem TransferFrom_moves_funds ctx w from to value fromText toText b t v :
  initialized w ->
  from <> to ->
  holds w (balanceKey from) = Some fromText -> parseInt fromText = Num b ->
  holds w (balanceKey to) = Some toText -> parseInt toText = Num t ->
  parseInt value = Num v ->
  0 <= v <= b -> b <= MAX_SAFE_INTEGER ->
  0 <= t -> t + v <= MAX_SAFE_INTEGER ->
  invoke (TransferFrom ctx from to value) w =
    (Success true None, after (TransferFrom ctx from to value) w) /\
  balance (after (TransferFrom ctx from to value) w) from = Some (Num (b - v)) /\
  balance (after (TransferFrom ctx from to value) w) to = Some (Num (t + v)) /\
  (forall a, a <> from -> a <> to ->
     balance (after (TransferFrom ctx from to value) w) a = balance w a) /\
  sum_balances (after (TransferFrom ctx from to value) w) = sum_balances w /\
  cells (after (TransferFrom ctx from to value) w) !! totalSupplyKey =
    cells w !! totalSupplyKey.
Proof.
  intros Hi Hd Hf Hb Ht Htt Hv Rv Rb Rt Rs. unfold MAX_SAFE_INTEGER in Rb, Rs.
  unfold after.
  rewrite (TransferFrom_success ctx w from to value Hd fromText toText
             (Num (b - v)) (Num (t + v)));
    rewrite ?Hv, ?Hb, ?Htt; try assumption.
  - cbn [snd]. split; [reflexivity |]. split; [| split; [| split; [| split]]].
    + rewrite balance_after_puts, decide_False, decide_True by auto.
      apply stored_number. lia.
    + rewrite balance_after_puts, decide_True by reflexivity.
      apply stored_number. lia.
    + intros a Ha Hb'. rewrite balance_after_puts, !decide_False by assumption.
      reflexivity.
    + rewrite (sum_after_transfer w _ from to fromText toText b t) by (assumption || lia).
      lia.
    + cbn [cells]. apply option_cell_after_puts. auto.
  - apply lt_zero_false. lia.
  - cbn. apply Z.ltb_ge. lia.
  - apply sub_representable; apply representable_safe; lia.
  - apply add_representable; apply representable_safe; lia.
Qed.

(** X12 ([Transfer] moves the amount): the same for [Transfer] from the
    caller's own account to another account. *)
Theorem Transfer_moves_funds ctx w to value fromText toText b t v :
  initialized w ->
  clientID ctx <> to ->
  holds w (balanceKey (clientID ctx)) = Some fromText -> parseInt fromText = Num b ->
  holds w (balanceKey to) = Some toText -> parseInt toText = Num t ->
  parseInt value = Num v ->
  0 <= v <= b -> b <= MAX_SAFE_INTEGER ->
  0 <= t -> t + v <= MAX_SAFE_INTEGER ->
  invoke (Transfer ctx to value) w = (Success true None, after (Transfer ctx to value) w) /\
  balance (after (Transfer ctx to value) w) (clientID ctx) = Some (Num (b - v)) /\
  balance (after (Transfer ctx to value) w) to = Some (Num (t + v)) /\
  (forall a, a <> clientID ctx -> a <> to ->
     balance (after (Transfer ctx to value) w) a = balance w a) /\
  sum_balances (after (Transfer ctx to value) w) = sum_balances w /\
  cells (after (Transfer ctx to value) w) !! totalSupplyKey = cells w !! totalSupplyKey.
Proof.
  intros Hi Hd Hf Hb Ht Htt Hv Rv Rb Rt Rs. unfold MAX_SAFE_INTEGER in Rb, Rs.
  unfold after.
  rewrite (Transfer_success ctx w to value fromText toText (Num (b - v)) (Num (t + v)));
    rewrite ?Hv, ?Hb, ?Htt; try assumption.
  - cbn [snd]. split; [reflexivity |]. split; [| split; [| split; [| split]]].
    + rewrite balance_after_puts, decide_False, decide_True by auto.
      apply stored_number. lia.
    + rewrite balance_after_puts, decide_True by reflexivity.
      apply stored_number. lia.
    + intros a Ha Hb'. rewrite balance_after_puts, !decide_False by assumption.
      reflexivity.
    + rewrite (sum_after_transfer w _ (clientID ctx) to fromText toText b t)
        by (assumption || lia).
      lia.
    + cbn [cells]. apply option_cell_after_puts. auto.
  - apply lt_zero_false. lia.
  - cbn. apply Z.ltb_ge. lia.
  - apply sub_representable; apply representable_safe; lia.
  - apply add_representable; apply representable_safe; lia.
Qed.

(** X15 ([add] and [sub] only fulfil on finite numbers): when the promise
    of [add] or [sub] is fulfilled, both operands and the result are
    finite numbers: NaN, an infinity, or a sum past the largest double
    are always rejected. *)
Theorem guards_fulfil_finite x y c :
  add x y = Fulfilled c \/ sub x y = Fulfilled c ->
  exists a b z, x = Num a /\ y = Num b /\ c = Num z.
Proof.
  intros [H | H].
  - destruct x as [a | | |], y as [b | | |]; try discriminate H.
    unfold add in H. cbn [JS.add] in H.
    destruct (of_Z (a + b)) as [z | | |] eqn:E; try discriminate H.
    exists a, b, z. repeat split.
    destruct (_ || _) in H; [discriminate H | now injection H as <-].
  - destruct x as [a | | |], y as [b | | |]; try discriminate H.
    unfold sub, JS.sub in H. cbn [neg JS.add] in H.
    destruct (of_Z (a + - b)) as [z | | |] eqn:E; try discriminate H.
    exists a, b, z. repeat split.
    destruct (_ || _) in H; [discriminate H | now injection H as <-].
Qed.

Lemma guards_fulfil_finite_witness :
  (add (Num 2) (Num 3) = Fulfilled (Num 5) \/ sub (Num 2) (Num 3) = Fulfilled (Num 5)) /\
  exists a b z, Num 2 = Num a /\ Num 3 = Num b /\ Num 5 = Num z.
Proof.
  assert (H : add (Num 2) (Num 3) = Fulfilled (Num 5) \/
              sub (Num 2) (Num 3) = Fulfilled (Num 5)) by (left; reflexivity).
  split; [exact H |].
  exact (guards_fulfil_finite (Num 2) (Num 3) (Num 5) H).
Defined.

Lemma sub_NaN_amount x : sub x NaN = Rejected (ArithmeticUnderflow x NaN).
Proof. destruct x; reflexivity. Qed.

Lemma lt_NaN_r x : lt x NaN = false.
Proof. destruct x; reflexivity. Qed.

(** X14 ([Transfer], [TransferFrom] with an amount that is no number):
    a value whose [parseInt] is NaN passes the sign check and the funds
    check (both comparisons with NaN are false); between two signed-up
    accounts it is then rejected by the guard of [sub], with the
    subtraction overflow error, and nothing is written. *)
Theorem transfer_non_numeric_amount ctx w from to value fromText toText :
  parseInt value = NaN ->
  holds w (balanceKey from) = Some fromText ->
  holds w (balanceKey to) = Some toText ->
  (initialized w -> clientID ctx = from ->
     invoke (Transfer ctx to value) w =
       (Failure (ArithmeticUnderflow (parseInt fromText) NaN), w)) /\
  (from <> to ->
     invoke (TransferFrom ctx from to value) w =
       (Failure (ArithmeticUnderflow (parseInt fromText) NaN), w)).
Proof.
  intros Hv Hf Ht. split.
  - intros Hi <-. unfold invoke, Transfer.
    repeat tx_step. rewrite Hv. cbn [lt].
    repeat tx_step. fold (balanceKey (clientID ctx)). rewrite Hf, lt_NaN_r.
    repeat tx_step. fold (balanceKey to). rewrite Ht, sub_NaN_amount. reflexivity.
  - intros Hd. unfold invoke, TransferFrom.
    rewrite (eqb_distinct from to Hd), Hv. cbn [lt].
    repeat tx_step. fold (balanceKey from). rewrite Hf, lt_NaN_r.
    repeat tx_step. fold (balanceKey to). rewrite Ht, sub_NaN_amount. reflexivity.
Qed.

Lemma transfer_non_numeric_amount_witness :
  parseInt "ten" = NaN /\
  holds (funded "10") (balanceKey "alice") = Some "10" /\
  holds (funded "10") (balanceKey "bob") = Some "3" /\
  invoke (Transfer alice "bob" "ten") (funded "10") =
    (Failure (ArithmeticUnderflow (parseInt "10") NaN), funded "10") /\
  invoke (TransferFrom bob "alice" "bob" "ten") (funded "10") =
    (Failure (ArithmeticUnderflow (parseInt "10") NaN), funded "10").
Proof.
  assert (Hv : parseInt "ten" = NaN) by reflexivity.
  assert (Hf : holds (funded "10") (balanceKey "alice") = Some "10") by reflexivity.
  assert (Ht : holds (funded "10") (balanceKey "bob") = Some "3") by reflexivity.
  assert (Hi : initialized (funded "10")) by (exists "Token"; reflexivity).
  split; [exact Hv |]. split; [exact Hf |]. split; [exact Ht |]. split.
  - exact (proj1 (transfer_non_numeric_amount alice (funded "10") "alice" "bob" "ten"
                    "10" "3" Hv Hf Ht) Hi eq_refl).
  - apply (proj2 (transfer_non_numeric_amount bob (funded "10") "alice" "bob" "ten"
                    "10" "3" Hv Hf Ht)).
    discriminate.
Defined.

(** X16 ([TransferFrom] before [Initialize]): although it does not call
    [CheckInitialized] itself, [TransferFrom] never succeeds on a ledger
    without metadata, whatever the balances: it fails and leaves the
    ledger unchanged. *)
Theorem TransferFrom_needs_Initialize ctx w from to value :
  holds w nameKey = None ->
  exists e, invoke (TransferFrom ctx from to value) w = (Failure e, w).
Proof.
  intros Hn. unfold invoke, TransferFrom.
  destruct (String.eqb from to); [eexists; reflexivity |].
  destruct (lt (parseInt value) (Num 0)); [eexists; reflexivity |].
  repeat tx_step.
  destruct (holds w (createCompositeKey balancePrefix [from])) as [fromText |];
    [| eexists; reflexivity].
  destruct (lt (parseInt fromText) (parseInt value)); [eexists; reflexivity |].
  repeat tx_step.
  destruct (holds w (createCompositeKey balancePrefix [to])) as [toText |];
    [| eexists; reflexivity].
  destruct (sub (parseInt fromText) (parseInt value)); [| eexists; reflexivity].
  repeat tx_step.
  destruct (add (parseInt toText) (parseInt value)); [| eexists; reflexivity].
  unfold setFromTransactionData.
  repeat tx_step. rewrite CheckInitialized_fail by assumption.
  eexists; reflexivity.
Qed.

Lemma TransferFrom_needs_Initialize_witness :
  holds genesis nameKey = None /\
  exists e, invoke (TransferFrom alice "alice" "bob" "1") genesis = (Failure e, genesis).
Proof.
  assert (H : holds genesis nameKey = None) by reflexivity.
  split; [exact H |].
  exact (TransferFrom_needs_Initialize alice genesis "alice" "bob" "1" H).
Defined.

Lemma getTransactionData_run ctx w userAddress :
  initialized w ->
  invoke (getTransactionData ctx userAddress) w =
    (match history w userAddress with
     | Some l => Success l None
     | None => Failure (NoHistory userAddress)
     end, w).
Proof.
  intros Hi. unfold invoke, getTransactionData. repeat tx_step.
  unfold history, historyKey.
  destruct (logs w !! _); reflexivity.
Qed.

Lemma initialized_after_puts w lg a b s s' :
  initialized w ->
  initialized {| cells := <[balanceKey b := s']> (<[balanceKey a := s]> (cells w));
                 logs := lg |}.
Proof.
  intros [n H]. exists n. unfold holds in *. cbn [cells].
  rewrite option_cell_after_puts by auto. exact H.
Qed.

(** X17 ([TransferFrom] then [getTransactionData]): after a successful
    [TransferFrom], [getTransactionData] of the source and of the
    destination each return the history the account had, in order,
    followed by the record of this transfer; the history of every other
    account is unchanged. *)
Theorem TransferFrom_then_history ctx reader w from to value fromText toText f' t' :
  initialized w ->
  from <> to ->
  lt (parseInt value) (Num 0) = false ->
  holds w (balanceKey from) = Some fromText ->
  lt (parseInt fromText) (parseInt value) = false ->
  holds w (balanceKey to) = Some toText ->
  sub (parseInt fromText) (parseInt value) = Fulfilled f' ->
  add (parseInt toText) (parseInt value) = Fulfilled t' ->
  invoke (getTransactionData reader from) (after (TransferFrom ctx from to value) w) =
    (Success (default [] (history w from) ++ [transferRecord ctx from to value]) None,
     after (TransferFrom ctx from to value) w) /\
  invoke (getTransactionData reader to) (after (TransferFrom ctx from to value) w) =
    (Success (default [] (history w to) ++ [transferRecord ctx from to value]) None,
     after (TransferFrom ctx from to value) w) /\
  (forall a, a <> from -> a <> to ->
     history (after (TransferFrom ctx from to value) w) a = history w a).
Proof.
  intros Hi Hd Hv Hf Hlt Ht Hsub Hadd. unfold after.
  rewrite (TransferFrom_success ctx w from to value Hd fromText toText f' t')
    by assumption.
  cbn [snd]. split; [| split].
  - rewrite getTransactionData_run by now apply initialized_after_puts.
    unfold history at 1. cbn [logs].
    rewrite lookup_insert_ne by (intros E; apply historyKey_inj in E; congruence).
    now rewrite lookup_insert_eq.
  - rewrite getTransactionData_run by now apply initialized_after_puts.
    unfold history at 1. cbn [logs]. now rewrite lookup_insert_eq.
  - intros a Ha Hb. unfold history. cbn [logs].
    rewrite !lookup_insert_ne by (intros E; apply historyKey_inj in E; congruence).
    reflexivity.
Qed.

(** [getTransactionData] on an initialized ledger: the stored array of
    the address as it is, NoHistory when the address has none. *)
Theorem getTransactionData_reads_history ctx w userAddress :
  initialized w ->
  invoke (getTransactionData ctx userAddress) w =
    (match logs w !! historyKey userAddress with
     | Some l => Success l None
     | None => Failure (NoHistory userAddress)
     end, w).
Proof. intros Hi. now apply getTransactionData_run. Qed.

Lemma parseInt_promiseText : parseInt promiseText = NaN.
Proof. vm_compute. reflexivity. Qed.

Lemma le_NaN_l y : le NaN y = false.
Proof. reflexivity. Qed.

(** X20 ([Mint], who and how much): on an initialized ledger a caller
    outside Org1MSP is refused with Unauthorized, and the administrator
    is refused with InvalidAmount for an amount that is zero or negative;
    nothing is written. *)
Theorem Mint_rejections ctx w amount :
  initialized w ->
  (clientMSPID ctx <> "Org1MSP" ->
     invoke (Mint ctx amount) w = (Failure Unauthorized, w)) /\
  (clientMSPID ctx = "Org1MSP" -> le (parseInt amount) (Num 0) = true ->
     invoke (Mint ctx amount) w = (Failure InvalidAmount, w)).
Proof.
  intros Hi. split.
  - intros H. apply String.eqb_neq in H. unfold invoke, Mint.
    repeat tx_step. rewrite H. reflexivity.
  - intros H Ha. unfold invoke, Mint.
    repeat tx_step. rewrite H, Ha. reflexivity.
Qed.

Lemma Mint_rejections_witness :
  initialized opened /\
  invoke (Mint alice "5") opened = (Failure Unauthorized, opened) /\
  invoke (Mint org1_admin "0") opened = (Failure InvalidAmount, opened) /\
  invoke (Mint org1_admin "-3") opened = (Failure InvalidAmount, opened).
Proof.
  assert (Hi : initialized opened) by (exists "Token"; reflexivity).
  split; [exact Hi |]. split; [| split].
  - apply (proj1 (Mint_rejections alice opened "5" Hi)). discriminate.
  - exact (proj2 (Mint_rejections org1_admin opened "0" Hi) eq_refl eq_refl).
  - exact (proj2 (Mint_rejections org1_admin opened "-3" Hi) eq_refl eq_refl).
Defined.

(** X21 ([Mint] then the accessors): after any mint that is let through,
    [BalanceOf] of the minter and [TotalSupply] both return NaN, whatever
    the minter held and whatever was minted; the other balances and the
    histories are unchanged. *)
Theorem Mint_then_read ctx reader w amount :
  initialized w ->
  clientMSPID ctx = "Org1MSP" ->
  le (parseInt amount) (Num 0) = false ->
  invoke (Mint ctx amount) w =
    (Success true
       (Some ("Transfer",
              {| json_from := "0x0"; json_to := clientID ctx;
                 json_value := JSON_of_Number (parseInt amount) |})),
     after (Mint ctx amount) w) /\
  invoke (BalanceOf reader (clientID ctx)) (after (Mint ctx amount) w) =
    (Success NaN None, after (Mint ctx amount) w) /\
  invoke (TotalSupply reader) (after (Mint ctx amount) w) =
    (Success NaN None, after (Mint ctx amount) w) /\
  (forall a, a <> clientID ctx -> balance (after (Mint ctx amount) w) a = balance w a) /\
  logs (after (Mint ctx amount) w) = logs w.
Proof.
  intros Hi Hm Ha. unfold after.
  rewrite (Mint_stores_promise_text ctx w amount Hi Hm Ha). cbn [snd].
  assert (Hi' : initialized
    {| cells := <[totalSupplyKey := promiseText]>
                  (<[balanceKey (clientID ctx) := promiseText]> (cells w));
       logs := logs w |}).
  { destruct Hi as [n H]. exists n. rewrite holds_insert, decide_False by discriminate.
    unfold holds in H.
    rewrite lookup_insert_ne by (apply balanceKey_not_option). exact H. }
  split; [reflexivity |]. split; [| split; [| split]].
  - rewrite (BalanceOf_run _ _ _ Hi').
    rewrite holds_insert, decide_False by (apply not_eq_sym, balanceKey_not_option).
    rewrite lookup_insert_eq. cbn [content promiseText].
    now rewrite parseInt_promiseText.
  - unfold invoke, TotalSupply. unfold bind at 1.
    rewrite CheckInitialized_ok by exact Hi'.
    unfold bind at 1. rewrite (getState_present _ _ _ promiseText);
      [| cbn [cells]; apply lookup_insert_eq].
    unfold bind, toString, ret. now rewrite parseInt_promiseText.
  - intros a Hne. unfold balance, holds. cbn [cells].
    rewrite lookup_insert_ne by (apply not_eq_sym, balanceKey_not_option).
    rewrite lookup_insert_ne by (intros E; apply balanceKey_inj in E; congruence).
    reflexivity.
  - reflexivity.
Qed.

Lemma Mint_then_read_witness :
  initialized opened /\
  clientMSPID org1_admin = "Org1MSP" /\
  le (parseInt "100") (Num 0) = false /\
  invoke (BalanceOf bob (clientID org1_admin)) (after (Mint org1_admin "100") opened) =
    (Success NaN None, after (Mint org1_admin "100") opened) /\
  invoke (TotalSupply bob) (after (Mint org1_admin "100") opened) =
    (Success NaN None, after (Mint org1_admin "100") opened).
Proof.
  assert (Hi : initialized opened) by (exists "Token"; reflexivity).
  destruct (Mint_then_read org1_admin bob opened "100" Hi eq_refl eq_refl)
    as (_ & B & T & _).
  split; [exact Hi |]. split; [reflexivity |]. split; [reflexivity |].
  split; [exact B | exact T].
Defined.

(** X22 ([Mint] with an amount that is no number): [NaN <= 0] is false,
    so the administrator's mint of a non-numeric amount is let through;
    [JSON.stringify] writes the NaN of the event object as [null], and
    that is the value the Transfer event carries. *)
Theorem Mint_non_numeric_amount ctx w amount :
  initialized w ->
  clientMSPID ctx = "Org1MSP" ->
  parseInt amount = NaN ->
  fst (invoke (Mint ctx amount) w) =
    Success true
      (Some ("Transfer",
             {| json_from := "0x0"; json_to := clientID ctx; json_value := JSON_null |})).
Proof.
  intros Hi Hm Ha.
  rewrite (Mint_stores_promise_text ctx w amount Hi Hm) by now rewrite Ha.
  cbn [fst]. now rewrite Ha.
Qed.

Lemma Mint_non_numeric_amount_witness :
  initialized opened /\
  clientMSPID org1_admin = "Org1MSP" /\
  parseInt "lots" = NaN /\
  fst (invoke (Mint org1_admin "lots") opened) =
    Success true
      (Some ("Transfer",
             {| json_from := "0x0"; json_to := clientID org1_admin;
                json_value := JSON_null |})).
Proof.
  assert (Hi : initialized opened) by (exists "Token"; reflexivity).
  split; [exact Hi |]. split; [reflexivity |]. split; [reflexivity |].
  exact (Mint_non_numeric_amount org1_admin opened "lots" Hi eq_refl eq_refl).
Defined.

(** X23 ([Burn], its three refusals): on an initialized ledger a caller
    outside Org1MSP is refused with Unauthorized; the administrator is
    refused with the missing balance error when the caller has no balance
    cell, and with SupplyNotFound when the balance exists and the total
    supply cell does not; nothing is written. *)
Theorem Burn_rejections ctx w amount :
  initialized w ->
  (clientMSPID ctx <> "Org1MSP" ->
     invoke (Burn ctx amount) w = (Failure Unauthorized, w)) /\
  (clientMSPID ctx = "Org1MSP" -> holds w (balanceKey (clientID ctx)) = None ->
     invoke (Burn ctx amount) w = (Failure BalanceNotFound, w)) /\
  (clientMSPID ctx = "Org1MSP" -> is_Some (holds w (balanceKey (clientID ctx))) ->
   holds w totalSupplyKey = None ->
     invoke (Burn ctx amount) w = (Failure SupplyNotFound, w)).
Proof.
  intros Hi. split; [| split].
  - intros H. apply String.eqb_neq in H. unfold invoke, Burn.
    repeat tx_step. rewrite H. reflexivity.
  - intros H Hb. unfold invoke, Burn.
    repeat tx_step. rewrite H, String.eqb_refl. cbn [negb].
    repeat tx_step. fold (balanceKey (clientID ctx)). rewrite Hb. reflexivity.
  - intros H [s Hb] Ht. unfold invoke, Burn.
    repeat tx_step. rewrite H, String.eqb_refl. cbn [negb].
    repeat tx_step. fold (balanceKey (clientID ctx)). rewrite Hb.
    repeat tx_step. rewrite Ht. reflexivity.
Qed.

Lemma Burn_rejections_witness :
  initialized (funded "10") /\
  invoke (Burn alice "1") (funded "10") = (Failure Unauthorized, funded "10") /\
  invoke (Burn org1_admin "1") (funded "10") = (Failure BalanceNotFound, funded "10") /\
  invoke (Burn banker "1") (funded "10") = (Failure SupplyNotFound, funded "10").
Proof.
  assert (Hi : initialized (funded "10")) by (exists "Token"; reflexivity).
  destruct (Burn_rejections alice (funded "10") "1" Hi) as (U & _).
  destruct (Burn_rejections org1_admin (funded "10") "1" Hi) as (_ & B & _).
  destruct (Burn_rejections banker (funded "10") "1" Hi) as (_ & _ & S).
  split; [exact Hi |]. split; [| split].
  - apply U. discriminate.
  - exact (B eq_refl eq_refl).
  - apply S; [reflexivity | exists "10"; reflexivity | reflexivity].
Defined.

(** X24 ([Burn] does not look at the amount): when the administrator
    has a balance cell and the total supply cell exists, [Burn] succeeds
    for every amount text, negative, larger than the balance or not a
    number; its event carries the parsed amount as [JSON.stringify]
    writes it, a finite amount as a number and NaN or an infinity as
    [null]; both cells are left holding the text of a promise, so that
    [BalanceOf] returns NaN. *)
Theorem Burn_unchecked_amount ctx reader w amount :
  initialized w ->
  clientMSPID ctx = "Org1MSP" ->
  is_Some (holds w (balanceKey (clientID ctx))) ->
  is_Some (holds w totalSupplyKey) ->
  invoke (Burn ctx amount) w =
    (Success true
       (Some ("Transfer",
              {| json_from := clientID ctx; json_to := "0x0";
                 json_value := JSON_of_Number (parseInt amount) |})),
     after (Burn ctx amount) w) /\
  cells (after (Burn ctx amount) w) !! balanceKey (clientID ctx) = Some promiseText /\
  cells (after (Burn ctx amount) w) !! totalSupplyKey = Some promiseText /\
  invoke (BalanceOf reader (clientID ctx)) (after (Burn ctx amount) w) =
    (Success NaN None, after (Burn ctx amount) w).
Proof.
  intros Hi Hm [s Hb] [t Ht]. unfold after.
  rewrite (Burn_stores_promise_text ctx w amount Hi Hm s t Hb Ht). cbn [snd].
  assert (Hi' : initialized
    {| cells := <[totalSupplyKey := promiseText]>
                  (<[balanceKey (clientID ctx) := promiseText]> (cells w));
       logs := logs w |}).
  { destruct Hi as [n H]. exists n. rewrite holds_insert, decide_False by discriminate.
    unfold holds in H.
    rewrite lookup_insert_ne by (apply balanceKey_not_option). exact H. }
  split; [reflexivity |]. split; [| split].
  - cbn [cells].
    rewrite lookup_insert_ne by (apply not_eq_sym, balanceKey_not_option).
    apply lookup_insert_eq.
  - cbn [cells]. apply lookup_insert_eq.
  - rewrite (BalanceOf_run _ _ _ Hi').
    rewrite holds_insert, decide_False by (apply not_eq_sym, balanceKey_not_option).
    rewrite lookup_insert_eq. cbn [content promiseText].
    now rewrite parseInt_promiseText.
Qed.

Lemma Burn_unchecked_amount_witness :
  initialized (supplied "10" "13") /\
  clientMSPID banker = "Org1MSP" /\
  is_Some (holds (supplied "10" "13") (balanceKey (clientID banker))) /\
  is_Some (holds (supplied "10" "13") totalSupplyKey) /\
  invoke (Burn banker "-500") (supplied "10" "13") =
    (Success true
       (Some ("Transfer",
              {| json_from := clientID banker; json_to := "0x0";
                 json_value := JSON_num (-500) |})),
     after (Burn banker "-500") (supplied "10" "13")) /\
  cells (after (Burn banker "-500") (supplied "10" "13")) !! totalSupplyKey =
    Some promiseText /\
  invoke (Burn banker "all") (supplied "10" "13") =
    (Success true
       (Some ("Transfer",
              {| json_from := clientID banker; json_to := "0x0";
                 json_value := JSON_null |})),
     after (Burn banker "all") (supplied "10" "13")).
Proof.
  assert (Hi : initialized (supplied "10" "13")) by (exists "Token"; reflexivity).
  assert (Hb : is_Some (holds (supplied "10" "13") (balanceKey (clientID banker))))
    by (exists "10"; reflexivity).
  assert (Ht : is_Some (holds (supplied "10" "13") totalSupplyKey))
    by (exists "13"; reflexivity).
  destruct (Burn_unchecked_amount banker bob (supplied "10" "13") "-500" Hi eq_refl Hb Ht)
    as (R & _ & T & _).
  destruct (Burn_unchecked_amount banker bob (supplied "10" "13") "all" Hi eq_refl Hb Ht)
    as (R' & _).
  split; [exact Hi |]. split; [reflexivity |]. split; [exact Hb |]. split; [exact Ht |].
  split; [exact R |]. split; [exact T | exact R'].
Defined.

(** X19 (the history writers): called on their own, on an initialized
    ledger, by any caller and with any arguments, the three writers
    succeed; each appends exactly one record after the records already
    stored under its key ([from] for the first, [to] for the other two)
    and touches no other cell. *)
Theorem history_writers_append ctx w from to value :
  initialized w ->
  invoke (setFromTransactionData ctx from to value) w =
    (Success true None,
     {| cells := cells w;
        logs := <[historyKey from :=
                    default [] (history w from) ++ [transferRecord ctx from to value]]>
                  (logs w) |}) /\
  invoke (setToTransactionData ctx from to value) w =
    (Success true None,
     {| cells := cells w;
        logs := <[historyKey to :=
                    default [] (history w to) ++ [transferRecord ctx from to value]]>
                  (logs w) |}) /\
  invoke (setAdminTransactionData ctx to value) w =
    (Success true None,
     {| cells := cells w;
        logs := <[historyKey to :=
                    default [] (history w to) ++
                    [{| rec_from := "admin"; rec_to := to; rec_value := value;
                        rec_time := txTimestamp ctx |}]]>
                  (logs w) |}).
Proof.
  intros Hi. split; [| split].
  - unfold invoke, setFromTransactionData. repeat tx_step.
    unfold history, historyKey, transferRecord.
    destruct (logs w !! _); reflexivity.
  - unfold invoke, setToTransactionData. repeat tx_step.
    unfold history, historyKey, transferRecord.
    destruct (logs w !! _); reflexivity.
  - unfold invoke, setAdminTransactionData. repeat tx_step.
    unfold history, historyKey.
    destruct (logs w !! _); reflexivity.
Qed.

Lemma history_writers_append_witness :
  initialized (funded "10") /\
  fst (invoke (setFromTransactionData bob "alice" "carol" "7") (funded "10")) =
    Success true None /\
  history (snd (invoke (setFromTransactionData bob "alice" "carol" "7") (funded "10")))
    "alice" = Some [transferRecord bob "alice" "carol" "7"].
Proof.
  assert (Hi : initialized (funded "10")) by (exists "Token"; reflexivity).
  destruct (history_writers_append bob (funded "10") "alice" "carol" "7" Hi) as (F & _).
  split; [exact Hi |]. rewrite F. split; reflexivity.
Defined.

(** X13 (a transfer the destination cannot take): when the subtraction
    for the source passes its guard and the addition for the destination
    is rejected, [Transfer] and [TransferFrom] fail with the error of the
    addition and the source balance is not written either. *)
Theorem transfer_overflow_keeps_state ctx w from to value fromText toText f' e :
  lt (parseInt value) (Num 0) = false ->
  holds w (balanceKey from) = Some fromText ->
  lt (parseInt fromText) (parseInt value) = false ->
  holds w (balanceKey to) = Some toText ->
  sub (parseInt fromText) (parseInt value) = Fulfilled f' ->
  add (parseInt toText) (parseInt value) = Rejected e ->
  (initialized w -> clientID ctx = from ->
     invoke (Transfer ctx to value) w = (Failure e, w)) /\
  (from <> to -> invoke (TransferFrom ctx from to value) w = (Failure e, w)).
Proof.
  intros Hv Hf Hlt Ht Hsub Hadd. split.
  - intros Hi <-. unfold invoke, Transfer.
    repeat tx_step. rewrite Hv.
    repeat tx_step. fold (balanceKey (clientID ctx)). rewrite Hf, Hlt.
    repeat tx_step. fold (balanceKey to). rewrite Ht, Hsub.
    repeat tx_step. rewrite Hadd. reflexivity.
  - intros Hd. unfold invoke, TransferFrom.
    rewrite (eqb_distinct from to Hd), Hv.
    repeat tx_step. fold (balanceKey from). rewrite Hf, Hlt.
    repeat tx_step. fold (balanceKey to). rewrite Ht, Hsub.
    repeat tx_step. rewrite Hadd. reflexivity.
Qed.

Lemma transfer_overflow_keeps_state_witness :
  lt (parseInt "9007199254740990") (Num 0) = false /\
  holds (funded "9007199254740991") (balanceKey "alice") = Some "9007199254740991" /\
  lt (parseInt "9007199254740991") (parseInt "9007199254740990") = false /\
  holds (funded "9007199254740991") (balanceKey "bob") = Some "3" /\
  sub (parseInt "9007199254740991") (parseInt "9007199254740990") = Fulfilled (Num 1) /\
  add (parseInt "3") (parseInt "9007199254740990") =
    Rejected (ArithmeticOverflow (Num 3) (Num 9007199254740990)) /\
  invoke (Transfer alice "bob" "9007199254740990") (funded "9007199254740991") =
    (Failure (ArithmeticOverflow (Num 3) (Num 9007199254740990)),
     funded "9007199254740991") /\
  invoke (TransferFrom bob "alice" "bob" "9007199254740990") (funded "9007199254740991") =
    (Failure (ArithmeticOverflow (Num 3) (Num 9007199254740990)),
     funded "9007199254740991").
Proof.
  assert (Hi : initialized (funded "9007199254740991")) by (exists "Token"; reflexivity).
  assert (Hv : lt (parseInt "9007199254740990") (Num 0) = false)
    by (vm_compute; reflexivity).
  assert (Hf : holds (funded "9007199254740991") (balanceKey "alice") =
               Some "9007199254740991") by reflexivity.
  assert (Hlt : lt (parseInt "9007199254740991") (parseInt "9007199254740990") = false)
    by (vm_compute; reflexivity).
  assert (Ht : holds (funded "9007199254740991") (balanceKey "bob") = Some "3")
    by reflexivity.
  assert (Hs : sub (parseInt "9007199254740991") (parseInt "9007199254740990") =
               Fulfilled (Num 1)) by (vm_compute; reflexivity).
  assert (Ha : add (parseInt "3") (parseInt "9007199254740990") =
               Rejected (ArithmeticOverflow (Num 3) (Num 9007199254740990)))
    by (vm_compute; reflexivity).
  repeat (split; [assumption |]).
  split.
  - exact (proj1 (transfer_overflow_keeps_state alice _ "alice" "bob" _ _ _ _ _
                    Hv Hf Hlt Ht Hs Ha) Hi eq_refl).
  - apply (proj2 (transfer_overflow_keeps_state bob _ "alice" "bob" _ _ _ _ _
                    Hv Hf Hlt Ht Hs Ha)).
    discriminate.
Defined.


(** X5 ([CheckInitialized] as a gate): on a ledger without metadata every
    operation other than [Initialize] and [TransferFrom], and each of the
    three history writers, fails with NotInitialized and writes nothing. *)
Theorem CheckInitialized_gates_operations ctx w :
  holds w nameKey = None ->
  (forall op, gated op = true ->
     invoke (dispatch ctx op) w = (Failure NotInitialized, w)) /\
  (forall from to value,
     invoke (setFromTransactionData ctx from to value) w = (Failure NotInitialized, w) /\
     invoke (setToTransactionData ctx from to value) w = (Failure NotInitialized, w) /\
     invoke (setAdminTransactionData ctx to value) w = (Failure NotInitialized, w)).
Proof.
  intros H. split.
  - intros op G. now apply NotInitialized_gate.
  - intros from to value. unfold invoke.
    unfold setFromTransactionData, setToTransactionData, setAdminTransactionData.
    repeat split; unfold bind at 1;
      rewrite CheckInitialized_fail by assumption; reflexivity.
Qed.

Lemma CheckInitialized_gates_operations_witness :
  holds genesis nameKey = None /\
  invoke (dispatch org1_admin (OpMint "5")) genesis = (Failure NotInitialized, genesis) /\
  invoke (dispatch alice (OpSignup "alice")) genesis = (Failure NotInitialized, genesis) /\
  invoke (setToTransactionData alice "alice" "bob" "1") genesis =
    (Failure NotInitialized, genesis).
Proof.
  assert (H : holds genesis nameKey = None) by reflexivity.
  destruct (CheckInitialized_gates_operations org1_admin genesis H) as [G1 _].
  destruct (CheckInitialized_gates_operations alice genesis H) as [G2 W].
  split; [exact H |]. split; [exact (G1 (OpMint "5") eq_refl) |].
  split; [exact (G2 (OpSignup "alice") eq_refl) |].
  exact (proj1 (proj2 (W "alice" "bob" "1"))).
Defined.

Lemma Initialize_once_witness :
  clientMSPID org1_admin = "Org1MSP" /\
  holds genesis nameKey = None /\
  "Token" <> EmptyString /\
  holds (after (Initialize org1_admin "Token" "TK" "2") genesis) nameKey = Some "Token" /\
  exists e,
    invoke (Initialize org1_admin "Other" "OT" "8")
      (after (Initialize org1_admin "Token" "TK" "2") genesis) =
      (Failure e, after (Initialize org1_admin "Token" "TK" "2") genesis) /\
    (e = Unauthorized \/ e = AlreadyInitialized).
Proof.
  assert (Hn : "Token" <> EmptyString) by discriminate.
  destruct (Initialize_once org1_admin org1_admin genesis "Token" "TK" "2"
              "Other" "OT" "8" eq_refl eq_refl Hn) as (_ & K & S).
  split; [reflexivity |]. split; [reflexivity |]. split; [exact Hn |].
  split; [exact K | exact S].
Defined.

Lemma Initialize_then_read_witness :
  clientMSPID org1_admin = "Org1MSP" /\
  holds genesis nameKey = None /\
  invoke (TokenName bob) (after (Initialize org1_admin "Token" "TK" "2") genesis) =
    (Success "Token" None, after (Initialize org1_admin "Token" "TK" "2") genesis) /\
  invoke (Decimals bob) (after (Initialize org1_admin "Token" "TK" "2") genesis) =
    (Success (parseInt "2") None, after (Initialize org1_admin "Token" "TK" "2") genesis).
Proof.
  assert (H1 : "Token" <> EmptyString) by discriminate.
  assert (H2 : "TK" <> EmptyString) by discriminate.
  assert (H3 : "2" <> EmptyString) by discriminate.
  destruct (Initialize_then_read org1_admin bob genesis "Token" "TK" "2"
              eq_refl eq_refl H1 H2 H3) as (N & _ & D).
  split; [reflexivity |]. split; [reflexivity |]. split; [exact N | exact D].
Defined.

Lemma Initialize_empty_name_witness :
  clientMSPID org1_admin = "Org1MSP" /\
  holds genesis nameKey = None /\
  holds (after (Initialize org1_admin "" "TK" "2") genesis) nameKey = None /\
  holds (after (Initialize org1_admin "Token" "TK" "2")
           (after (Initialize org1_admin "" "TK" "2") genesis)) nameKey = Some "Token".
Proof.
  assert (Hn : "Token" <> EmptyString) by discriminate.
  destruct (Initialize_empty_name org1_admin org1_admin genesis "TK" "2"
              "Token" "TK" "2" eq_refl eq_refl eq_refl Hn) as (_ & E & _ & K).
  split; [reflexivity |]. split; [reflexivity |]. split; [exact E | exact K].
Defined.

Lemma signup_new_account_witness :
  initialized (funded "10") /\
  holds (funded "10") (balanceKey "carol") = None /\
  balance (after (signup bob "carol") (funded "10")) "carol" = Some (Num 0) /\
  sum_balances (after (signup bob "carol") (funded "10")) = sum_balances (funded "10").
Proof.
  assert (Hi : initialized (funded "10")) by (exists "Token"; reflexivity).
  destruct (signup_new_account bob (funded "10") "carol" Hi eq_refl) as (_ & B & _ & S & _).
  split; [exact Hi |]. split; [reflexivity |]. split; [exact B | exact S].
Defined.

Lemma signup_keeps_balance_witness :
  initialized (funded "10") /\
  holds (funded "10") (balanceKey "alice") = Some "10" /\
  parseInt "10" = Num 10 /\
  - MAX_SAFE_INTEGER <= 10 <= MAX_SAFE_INTEGER /\
  (forall a, balance (after (signup bob "alice") (funded "10")) a = balance (funded "10") a).
Proof.
  assert (Hi : initialized (funded "10")) by (exists "Token"; reflexivity).
  assert (R : - MAX_SAFE_INTEGER <= 10 <= MAX_SAFE_INTEGER)
    by (vm_compute; split; discriminate).
  destruct (signup_keeps_balance bob (funded "10") "alice" "10" 10 Hi eq_refl eq_refl R)
    as (_ & B & _).
  split; [exact Hi |]. split; [reflexivity |]. split; [reflexivity |].
  split; [exact R | exact B].
Defined.

Lemma signup_then_BalanceOf_witness :
  initialized (funded "10") /\
  holds (funded "10") (balanceKey "carol") = None /\
  invoke (BalanceOf alice "carol") (funded "10") =
    (Failure (AccountNotFound "carol"), funded "10") /\
  invoke (BalanceOf alice "carol") (after (signup bob "carol") (funded "10")) =
    (Success (Num 0) None, after (signup bob "carol") (funded "10")).
Proof.
  assert (Hi : initialized (funded "10")) by (exists "Token"; reflexivity).
  split; [exact Hi |]. split; [reflexivity |].
  exact (signup_then_BalanceOf bob alice (funded "10") "carol" Hi eq_refl).
Defined.

Lemma BalanceOf_reads_cell_witness :
  initialized (funded "10") /\
  invoke (BalanceOf bob "alice") (funded "10") = (Success (Num 10) None, funded "10") /\
  invoke (ClientAccountBalance alice) (funded "10") =
    invoke (BalanceOf alice (clientID alice)) (funded "10") /\
  invoke (ClientAccountID alice) (funded "10") = (Success "alice" None, funded "10").
Proof.
  assert (Hi : initialized (funded "10")) by (exists "Token"; reflexivity).
  destruct (BalanceOf_reads_cell bob (funded "10") "alice" Hi) as (B & _).
  destruct (BalanceOf_reads_cell alice (funded "10") "alice" Hi) as (_ & C & I).
  split; [exact Hi |]. split; [exact B |]. split; [exact C | exact I].
Defined.

Lemma TransferFrom_moves_funds_witness :
  initialized (funded "10") /\
  "alice" <> "bob" /\
  holds (funded "10") (balanceKey "alice") = Some "10" /\ parseInt "10" = Num 10 /\
  holds (funded "10") (balanceKey "bob") = Some "3" /\ parseInt "3" = Num 3 /\
  parseInt "4" = Num 4 /\
  balance (after (TransferFrom bob "alice" "bob" "4") (funded "10")) "alice" =
    Some (Num (10 - 4)) /\
  balance (after (TransferFrom bob "alice" "bob" "4") (funded "10")) "bob" =
    Some (Num (3 + 4)) /\
  sum_balances (after (TransferFrom bob "alice" "bob" "4") (funded "10")) =
    sum_balances (funded "10").
Proof.
  assert (Hi : initialized (funded "10")) by (exists "Token"; reflexivity).
  assert (Hd : "alice" <> "bob") by discriminate.
  assert (Rv : 0 <= 4 <= 10) by lia.
  assert (Rb : 10 <= MAX_SAFE_INTEGER) by (vm_compute; discriminate).
  assert (Rt : 0 <= 3) by lia.
  assert (Rs : 3 + 4 <= MAX_SAFE_INTEGER) by (vm_compute; discriminate).
  destruct (TransferFrom_moves_funds bob (funded "10") "alice" "bob" "4" "10" "3" 10 3 4
              Hi Hd eq_refl eq_refl eq_refl eq_refl eq_refl Rv Rb Rt Rs)
    as (_ & A & B & _ & S & _).
  split; [exact Hi |]. split; [exact Hd |].
  do 5 (split; [reflexivity |]).
  split; [exact A |]. split; [exact B | exact S].
Defined.

Lemma Transfer_moves_funds_witness :
  initialized (funded "10") /\
  clientID alice <> "bob" /\
  holds (funded "10") (balanceKey (clientID alice)) = Some "10" /\ parseInt "10" = Num 10 /\
  holds (funded "10") (balanceKey "bob") = Some "3" /\ parseInt "3" = Num 3 /\
  parseInt "4" = Num 4 /\
  balance (after (Transfer alice "bob" "4") (funded "10")) (clientID alice) =
    Some (Num (10 - 4)) /\
  balance (after (Transfer alice "bob" "4") (funded "10")) "bob" = Some (Num (3 + 4)) /\
  sum_balances (after (Transfer alice "bob" "4") (funded "10")) =
    sum_balances (funded "10").
Proof.
  assert (Hi : initialized (funded "10")) by (exists "Token"; reflexivity).
  assert (Hd : clientID alice <> "bob") by discriminate.
  assert (Rv : 0 <= 4 <= 10) by lia.
  assert (Rb : 10 <= MAX_SAFE_INTEGER) by (vm_compute; discriminate).
  assert (Rt : 0 <= 3) by lia.
  assert (Rs : 3 + 4 <= MAX_SAFE_INTEGER) by (vm_compute; discriminate).
  destruct (Transfer_moves_funds alice (funded "10") "bob" "4" "10" "3" 10 3 4
              Hi Hd eq_refl eq_refl eq_refl eq_refl eq_refl Rv Rb Rt Rs)
    as (_ & A & B & _ & S & _).
  split; [exact Hi |]. split; [exact Hd |].
  do 5 (split; [reflexivity |]).
  split; [exact A |]. split; [exact B | exact S].
Defined.

Lemma TransferFrom_then_history_witness :
  initialized (funded "10") /\
  "alice" <> "bob" /\
  invoke (getTransactionData alice "bob")
    (after (TransferFrom bob "alice" "bob" "4") (funded "10")) =
    (Success (default [] (history (funded "10") "bob") ++
              [transferRecord bob "alice" "bob" "4"]) None,
     after (TransferFrom bob "alice" "bob" "4") (funded "10")).
Proof.
  assert (Hi : initialized (funded "10")) by (exists "Token"; reflexivity).
  assert (Hd : "alice" <> "bob") by discriminate.
  destruct (TransferFrom_then_history bob alice (funded "10") "alice" "bob" "4" "10" "3"
              (Num 6) (Num 7) Hi Hd eq_refl eq_refl eq_refl eq_refl eq_refl eq_refl)
    as (_ & T & _).
  split; [exact Hi |]. split; [exact Hd | exact T].
Defined.

Lemma getTransactionData_reads_history_witness :
  initialized (funded "10") /\
  invoke (getTransactionData bob "alice") (funded "10") =
    (Failure (NoHistory "alice"), funded "10").
Proof.
  assert (Hi : initialized (funded "10")) by (exists "Token"; reflexivity).
  split; [exact Hi |].
  exact (getTransactionData_reads_history bob (funded "10") "alice" Hi).
Defined.

(** X18 ([signup] opens no history): signing up an address that has no
    history leaves it without one: [getTransactionData] of the address
    still fails with NoHistory after the [signup]. *)
Theorem signup_creates_no_history ctx reader w userAddress :
  initialized w ->
  history w userAddress = None ->
  invoke (getTransactionData reader userAddress) (after (signup ctx userAddress) w) =
    (Failure (NoHistory userAddress), after (signup ctx userAddress) w).
Proof.
  intros Hi Hh. unfold after. rewrite (signup_run _ _ _ Hi). cbn [snd].
  rewrite getTransactionData_run by now apply initialized_after_put.
  unfold history in *. cbn [logs]. now rewrite Hh.
Qed.

Lemma signup_creates_no_history_witness :
  initialized (funded "10") /\
  history (funded "10") "carol" = None /\
  invoke (getTransactionData alice "carol") (after (signup bob "carol") (funded "10")) =
    (Failure (NoHistory "carol"), after (signup bob "carol") (funded "10")).
Proof.
  assert (Hi : initialized (funded "10")) by (exists "Token"; reflexivity).
  split; [exact Hi |]. split; [reflexivity |].
  exact (signup_creates_no_history bob alice (funded "10") "carol" Hi eq_refl).
Defined.
